(** * pr_agent: the unified-diff parser, the diff position mapper,
      the LLM response parser and the comment publisher

    A shallow embedding of [github_handler.py], [github_commenter.py],
    [llm_analyzer.py] and the publishing loop of [app.py], followed by the
    properties of the specification that concern them and by further
    properties of the code.

    Python [str] values are modelled by [string]; one [ascii] stands for one
    character (code points below 256).  Python exceptions are modelled by the
    [result] monad below. *)

From Stdlib Require Import ZArith Lia List Ascii String Bool Sorted DecimalString.
From stdpp Require Import base option list list_numbers gmap strings sorting.

Import ListNotations.
Local Open Scope Z_scope.

#[local] Arguments String.append !s1 s2 : simpl nomatch.

(** ** Exceptions *)

Inductive exn : Type :=
| ValueError                      (* raised by [int()] *)
| TypeError                       (* iterating over a value that is no container *)
| AttributeError                  (* a method looked up on [None] *)
| GithubException                 (* raised by the PyGithub calls *)
| PlainException (msg : string).  (* [raise Exception(msg)] *)

Inductive result (A : Type) : Type :=
| Ok (a : A)
| Raise (e : exn).

Arguments Ok {A} a.
Arguments Raise {A} e.

Definition bind {A B : Type} (r : result A) (k : A -> result B) : result B :=
  match r with
  | Ok a => k a
  | Raise e => Raise e
  end.

Notation "x <~ r ;; k" := (bind r (fun x => k))
  (at level 100, r at next level, k at level 200, right associativity).

(** A [for] loop whose body may raise: the first exception ends the loop. *)
Fixpoint foldM {S A : Type} (f : S -> A -> result S) (l : list A) (s : S)
  : result S :=
  match l with
  | [] => Ok s
  | x :: l' => s' <~ f s x ;; foldM f l' s'
  end.

(** ** The [str] methods the program uses *)

Module Py.

Definition nl : ascii := "010"%char.
Definition newline : string := String nl EmptyString.

(** [s.startswith(p)] *)
Fixpoint startswith (s p : string) : bool :=
  match p, s with
  | EmptyString, _ => true
  | String _ _, EmptyString => false
  | String a p', String b s' => if Ascii.eqb a b then startswith s' p' else false
  end.

(** [s.split(sep)] for a separator of one character. *)
Fixpoint split (sep : ascii) (s : string) : list string :=
  match s with
  | EmptyString => [EmptyString]
  | String c s' =>
      if Ascii.eqb c sep then EmptyString :: split sep s'
      else match split sep s' with
           | [] => [String c EmptyString]
           | w :: ws => String c w :: ws
           end
  end.

(** [sep.join(l)] *)
Fixpoint join (sep : string) (l : list string) : string :=
  match l with
  | [] => EmptyString
  | [x] => x
  | x :: l' => x +:+ sep +:+ join sep l'
  end.

(** [s[n:]] *)
Fixpoint slice_from (n : nat) (s : string) : string :=
  match n, s with
  | O, _ => s
  | S _, EmptyString => EmptyString
  | S n', String _ s' => slice_from n' s'
  end.

(** [s[:n]] *)
Fixpoint slice_to (n : nat) (s : string) : string :=
  match n, s with
  | O, _ => EmptyString
  | S _, EmptyString => EmptyString
  | S n', String c s' => String c (slice_to n' s')
  end.

(** [s[i:j]] for [0 <= i]. *)
Definition slice (i j : Z) (s : string) : string :=
  slice_to (Z.to_nat (j - i)) (slice_from (Z.to_nat i) s).

(** [c in s] *)
Fixpoint contains (c : ascii) (s : string) : bool :=
  match s with
  | EmptyString => false
  | String a s' => Ascii.eqb a c || contains c s'
  end.

(** [s.find(c)]: the lowest index of [c], or [-1]. *)
Fixpoint find (c : ascii) (s : string) : Z :=
  match s with
  | EmptyString => -1
  | String a s' =>
      if Ascii.eqb a c then 0
      else let i := find c s' in if i <? 0 then -1 else i + 1
  end.

(** [s.rfind(c)]: the highest index of [c], or [-1]. *)
Fixpoint rfind (c : ascii) (s : string) : Z :=
  match s with
  | EmptyString => -1
  | String a s' =>
      let i := rfind c s' in
      if 0 <=? i then i + 1
      else if Ascii.eqb a c then 0 else -1
  end.

(** *** [int(s)] on a string

    Surrounding whitespace is stripped, one sign is allowed, and the digits
    may be grouped by single underscores.  [None] stands for [ValueError]. *)

Definition isspace (c : ascii) : bool :=
  let n := nat_of_ascii c in
  ((9 <=? n) && (n <=? 13) || (28 <=? n) && (n <=? 32)
   || (n =? 133) || (n =? 160))%nat.

Fixpoint lstrip (s : string) : string :=
  match s with
  | String c s' => if isspace c then lstrip s' else s
  | EmptyString => EmptyString
  end.

Fixpoint rstrip (s : string) : string :=
  match s with
  | EmptyString => EmptyString
  | String c s' =>
      match rstrip s' with
      | EmptyString => if isspace c then EmptyString else String c EmptyString
      | t => String c t
      end
  end.

Definition strip (s : string) : string := rstrip (lstrip s).

Definition digit_of (c : ascii) : option Z :=
  let n := nat_of_ascii c in
  if ((48 <=? n) && (n <=? 57))%nat then Some (Z.of_nat n - 48) else None.

(** [after_digit] tells whether the previous character was a digit: only
    then may an underscore or the end of the string follow. *)
Fixpoint digits (s : string) (acc : Z) (after_digit : bool) : option Z :=
  match s with
  | EmptyString => if after_digit then Some acc else None
  | String c s' =>
      if Ascii.eqb c "_" then
        if after_digit then digits s' acc false else None
      else
        match digit_of c with
        | Some d => digits s' (10 * acc + d) true
        | None => None
        end
  end.

Definition int_opt (s : string) : option Z :=
  match strip s with
  | String "+" r => digits r 0 false
  | String "-" r => Z.opp <$> digits r 0 false
  | t => digits t 0 false
  end.

Definition int (s : string) : result Z :=
  match int_opt s with
  | Some z => Ok z
  | None => Raise ValueError
  end.

End Py.

(** ** github_handler.py: the unified-diff parser *)

(** The change records: the dictionaries with ['type'] equal to
    ['addition'], ['deletion'] and ['context']. *)
Inductive LineChange : Type :=
| Addition (line_num : Z) (content : string)
| Deletion (line_num : Z) (content : string)
| Context (old_line_num new_line_num : Z) (content : string).

(** The local variables of [_extract_line_changes]. *)
Record hunk_state : Type := HunkState {
  changes : list LineChange;
  in_hunk : bool;
  old_line_num : Z;
  new_line_num : Z
}.

(** The start value of [-old_start,old_count] or [+new_start,new_count]. *)
Definition hunk_start (info : string) : result Z :=
  if Py.contains "," info
  then Py.int (hd EmptyString (Py.split "," (Py.slice_from 1 info)))
  else Py.int (Py.slice_from 1 info).

(** One iteration of the loop of [_extract_line_changes]. *)
Definition extract_step (st : hunk_state) (line : string) : result hunk_state :=
  if Py.startswith line "@@" then
    let parts := Py.split " " line in
    if (3 <=? length parts)%nat then
      let old_info := nth 1 parts EmptyString in
      let new_info := nth 2 parts EmptyString in
      o <~ hunk_start old_info ;;
      n <~ hunk_start new_info ;;
      Ok (HunkState (changes st) true o n)
    else Ok (HunkState (changes st) true (old_line_num st) (new_line_num st))
  else if in_hunk st then
    if Py.startswith line "+" then
      Ok (HunkState
            (changes st ++ [Addition (new_line_num st) (Py.slice_from 1 line)])
            true (old_line_num st) (new_line_num st + 1))
    else if Py.startswith line "-" then
      Ok (HunkState
            (changes st ++ [Deletion (old_line_num st) (Py.slice_from 1 line)])
            true (old_line_num st + 1) (new_line_num st))
    else if negb (Py.startswith line "\") then
      Ok (HunkState
            (changes st ++ [Context (old_line_num st) (new_line_num st)
                                    (Py.slice_from 1 line)])
            true (old_line_num st + 1) (new_line_num st + 1))
    else Ok st
  else Ok st.

Definition extract_init : hunk_state := HunkState [] false 0 0.

Definition _extract_line_changes (diff_lines : list string)
  : result (list LineChange) :=
  st <~ foldM extract_step diff_lines extract_init ;; Ok (changes st).

(** The value stored per file: [{'content': ..., 'changes': ...}]. *)
Record DiffFile : Type := mkDiffFile {
  content : string;
  file_changes : list LineChange
}.

(** The local variables of [_parse_diff_content]. *)
Record parse_state : Type := ParseState {
  diffs : gmap string DiffFile;
  current_file : option string;
  current_diff_lines : list string
}.

(** Truth value of [current_file]: neither [None] nor the empty string. *)
Definition truthy (f : option string) : option string :=
  match f with
  | Some EmptyString => None
  | _ => f
  end.

(** [if current_file and current_diff_lines: diffs[current_file] = ...] *)
Definition save_file (st : parse_state) : result (gmap string DiffFile) :=
  match truthy (current_file st), current_diff_lines st with
  | Some f, _ :: _ =>
      ch <~ _extract_line_changes (current_diff_lines st) ;;
      Ok (<[f := mkDiffFile (Py.join Py.newline (current_diff_lines st)) ch]>
            (diffs st))
  | _, _ => Ok (diffs st)
  end.

(** One iteration of the loop of [_parse_diff_content]. *)
Definition parse_step (st : parse_state) (line : string) : result parse_state :=
  if Py.startswith line "diff --git" then
    d <~ save_file st ;;
    let parts := Py.split " " line in
    if (4 <=? length parts)%nat then
      Ok (ParseState d (Some (Py.slice_from 2 (nth 3 parts EmptyString))) [line])
    else Ok (ParseState d (current_file st) (current_diff_lines st))
  else
    match truthy (current_file st) with
    | Some _ =>
        Ok (ParseState (diffs st) (current_file st)
                       (current_diff_lines st ++ [line]))
    | None => Ok st
    end.

Definition parse_init : parse_state := ParseState ∅ None [].

(** The loop over the lines, then the last file. *)
Definition parse_lines (lines : list string) : result (gmap string DiffFile) :=
  st <~ foldM parse_step lines parse_init ;; save_file st.

Definition _parse_diff_content (diff_content : string)
  : result (gmap string DiffFile) :=
  parse_lines (Py.split Py.nl diff_content).

(** ** github_commenter.py: the diff position mapper *)

(** The loop over [patch_lines] in [_get_position_in_diff]; [position] and
    [current_line] are its two counters, and a [return] inside the loop ends
    the walk. *)
Fixpoint position_walk (patch_lines : list string) (line_number : Z)
    (position current_line : Z) : result Z :=
  match patch_lines with
  | [] => Ok position
  | patch_line :: rest =>
      let position := position + 1 in
      if Py.startswith patch_line "@@" then
        let parts := Py.split " " patch_line in
        if (3 <=? length parts)%nat then
          c <~ hunk_start (nth 2 parts EmptyString) ;;
          position_walk rest line_number position c
        else position_walk rest line_number position current_line
      else if Py.startswith patch_line "+" || negb (Py.startswith patch_line "-") then
        if current_line =? line_number then Ok position
        else if negb (Py.startswith patch_line "\") then
          position_walk rest line_number position (current_line + 1)
        else position_walk rest line_number position current_line
      else position_walk rest line_number position current_line
  end.

(** The walk over one patch text: [positionOf] of the specification. *)
Definition positionOf (patch : string) (line_number : Z) : result Z :=
  position_walk (Py.split Py.nl patch) line_number 0 0.

(** An entry of [pull_request.get_files()]; [patch] is [None] when the
    platform sends no patch (binary files). *)
Record PRFile : Type := mkPRFile {
  filename : string;
  patch : option string
}.

Definition not_found_message (file_path : string) : string :=
  "File " +:+ file_path +:+ " not found in the pull request".

Fixpoint position_in_files (files : list PRFile) (file_path : string)
    (line_number : Z) : result Z :=
  match files with
  | [] => Raise (PlainException (not_found_message file_path))
  | file :: files' =>
      if String.eqb (filename file) file_path then
        match patch file with
        | Some p => positionOf p line_number
        | None => Raise AttributeError
        end
      else position_in_files files' file_path line_number
  end.

(** ** The platform as the publisher sees it *)

(** What a pull request object answers.  A comment request is accepted
    ([None]) or rejected with an exception. *)
Record PullRequest : Type := mkPullRequest {
  get_files : result (list PRFile);
  last_commit : result string;   (* [get_commits().get_page(0)[-1]] *)
  create_review_comment : string -> string -> string -> Z -> option exn;
  create_issue_comment : string -> option exn
}.

(** [github.get_repo(repo_name).get_pull(pr_number)] *)
Record Github : Type := mkGithub {
  get_pull : string -> Z -> result PullRequest
}.

(** The comments that reached the platform. *)
Inductive posted : Type :=
| PostedReview (body commit path : string) (position : Z)
| PostedIssue (body : string).

Definition _get_position_in_diff (pull_request : PullRequest)
    (file_path : string) (line_number : Z) : result Z :=
  files <~ get_files pull_request ;;
  position_in_files files file_path line_number.

(** [str(n)] for an integer. *)
Definition str_of_Z (n : Z) : string := NilZero.string_of_int (Z.to_int n).

Definition format_fallback (file_path : string) (line_number : Z)
    (comment_text : string) : string :=
  "**" +:+ file_path +:+ ":" +:+ str_of_Z line_number +:+ "**"
       +:+ Py.newline +:+ Py.newline +:+ comment_text.

Definition _post_fallback_comment (gh : Github) (repo_name : string)
    (pr_number : Z) (file_path : string) (line_number : Z)
    (comment_text : string) : result posted :=
  pull_request <~ get_pull gh repo_name pr_number ;;
  let formatted_comment := format_fallback file_path line_number comment_text in
  match create_issue_comment pull_request formatted_comment with
  | Some e => Raise e
  | None => Ok (PostedIssue formatted_comment)
  end.

(** The body of the [try] block of [post_comment]; the arguments of
    [create_review_comment] are evaluated in the order they are written. *)
Definition post_review_comment (gh : Github) (repo_name : string)
    (pr_number : Z) (file_path : string) (line_number : Z)
    (comment_text : string) : result posted :=
  pull_request <~ get_pull gh repo_name pr_number ;;
  commit <~ last_commit pull_request ;;
  position <~ _get_position_in_diff pull_request file_path line_number ;;
  match create_review_comment pull_request comment_text commit file_path position with
  | Some e => Raise e
  | None => Ok (PostedReview comment_text commit file_path position)
  end.

(** [post_comment]: the comments it posted and what it returned or raised.
    Only [GithubException] is caught around the first attempt; every
    exception is caught around the fallback. *)
Definition post_comment (gh : Github) (repo_name : string) (pr_number : Z)
    (file_path : string) (line_number : Z) (comment_text : string)
  : list posted * result bool :=
  match post_review_comment gh repo_name pr_number file_path line_number comment_text with
  | Ok c => ([c], Ok true)
  | Raise GithubException =>
      match _post_fallback_comment gh repo_name pr_number file_path
                                   line_number comment_text with
      | Ok c => ([c], Ok true)
      | Raise _ => ([], Ok false)
      end
  | Raise e => ([], Raise e)
  end.

(** ** app.py: the publishing loop of [process_pull_request] *)

Record ReviewComment : Type := mkComment {
  line : Z;
  comment_content : string
}.

Fixpoint post_comments (gh : Github) (repo_name : string) (pr_number : Z)
    (file_path : string) (comments : list ReviewComment)
  : list posted * result unit :=
  match comments with
  | [] => ([], Ok tt)
  | comment :: comments' =>
      match post_comment gh repo_name pr_number file_path
                         (line comment) (comment_content comment) with
      | (out, Ok _) =>
          let '(out', r) := post_comments gh repo_name pr_number file_path comments' in
          (out ++ out', r)
      | (out, Raise e) => (out, Raise e)
      end
  end.

Fixpoint post_all (gh : Github) (repo_name : string) (pr_number : Z)
    (analysis_results : list (string * list ReviewComment))
  : list posted * result unit :=
  match analysis_results with
  | [] => ([], Ok tt)
  | (file_path, comments) :: results' =>
      match post_comments gh repo_name pr_number file_path comments with
      | (out, Ok _) =>
          let '(out', r) := post_all gh repo_name pr_number results' in
          (out ++ out', r)
      | (out, Raise e) => (out, Raise e)
      end
  end.

(** ** llm_analyzer.py: the response parser *)

(** Decoded JSON: what [json.loads] returns.  An object is kept as the list
    of its members. *)
#[warnings="-register-all"]
Inductive json : Type :=
| JNull
| JBool (b : bool)
| JInt (n : Z)
| JFloat (lexeme : string)
| JStr (s : string)
| JArr (items : list json)
| JObj (members : list (string * json)).

(** [isinstance(v, dict) and k in v] *)
Definition has_key (k : string) (v : json) : bool :=
  match v with
  | JObj members => existsb (fun m => String.eqb (fst m) k) members
  | _ => false
  end.

Definition valid_comment (comment : json) : bool :=
  has_key "line" comment && has_key "content" comment.

Fixpoint chars (s : string) : list json :=
  match s with
  | EmptyString => []
  | String c s' => JStr (String c EmptyString) :: chars s'
  end.

(** [for comment in comments]: a list yields its items, a dictionary its
    keys, a string its characters; other values are not iterable. *)
Definition iterate (comments : json) : result (list json) :=
  match comments with
  | JArr items => Ok items
  | JObj members => Ok (map (fun m => JStr (fst m)) members)
  | JStr s => Ok (chars s)
  | _ => Raise TypeError
  end.

Section Decoder.

(** [json.loads]; [None] stands for [json.JSONDecodeError]. *)
Variable loads : string -> option json.

Definition _parse_analysis_response (analysis_text : string)
  : result (list json) :=
  let json_start := Py.find "[" analysis_text in
  let json_end := Py.rfind "]" analysis_text + 1 in
  if (0 <=? json_start) && (json_start <? json_end) then
    let json_str := Py.slice json_start json_end analysis_text in
    match loads json_str with
    | Some comments =>
        items <~ iterate comments ;;
        Ok (List.filter valid_comment items)
    | None => Ok []
    end
  else Ok [].

End Decoder.

(** *** A JSON decoder

    A recursive-descent decoder for arrays, objects, strings with the
    one-letter escapes, numbers and the literals; it is the decoder the
    examples run with. *)
Module Json.

Definition dquote : ascii := "034"%char.

Definition is_ws (c : ascii) : bool :=
  Ascii.eqb c " " || Ascii.eqb c "009" || Ascii.eqb c "010" || Ascii.eqb c "013".

Fixpoint skip_ws (s : string) : string :=
  match s with
  | String c s' => if is_ws c then skip_ws s' else s
  | EmptyString => EmptyString
  end.

Definition unescape (e : ascii) : option ascii :=
  if Ascii.eqb e dquote then Some dquote
  else if Ascii.eqb e "\" then Some "\"%char
  else if Ascii.eqb e "/" then Some "/"%char
  else if Ascii.eqb e "b" then Some "008"%char
  else if Ascii.eqb e "f" then Some "012"%char
  else if Ascii.eqb e "n" then Some "010"%char
  else if Ascii.eqb e "r" then Some "013"%char
  else if Ascii.eqb e "t" then Some "009"%char
  else None.

(** The characters after an opening quote, up to the closing one. *)
Fixpoint string_body (s : string) : option (string * string) :=
  match s with
  | EmptyString => None
  | String c s' =>
      if Ascii.eqb c dquote then Some (EmptyString, s')
      else if Ascii.eqb c "\" then
        match s' with
        | String e s'' =>
            match unescape e, string_body s'' with
            | Some c', Some (t, r) => Some (String c' t, r)
            | _, _ => None
            end
        | EmptyString => None
        end
      else if (nat_of_ascii c <? 32)%nat then None
      else
        match string_body s' with
        | Some (t, r) => Some (String c t, r)
        | None => None
        end
  end.

Definition is_digit (c : ascii) : bool :=
  match Py.digit_of c with Some _ => true | None => false end.

Fixpoint take_digits (s : string) : string * string :=
  match s with
  | String c s' =>
      if is_digit c then let '(d, r) := take_digits s' in (String c d, r)
      else (EmptyString, s)
  | EmptyString => (EmptyString, EmptyString)
  end.

(** A number: an optional minus sign, an integer part without leading
    zeros, an optional fraction and an optional exponent. *)
Definition number (s : string) : option (json * string) :=
  let '(sign, s1) :=
    match s with String "-" r => ("-", r) | _ => (EmptyString, s) end in
  let '(ds, s2) := take_digits s1 in
  let '(ip, s3) :=
    match ds with
    | String "0" d' => ("0", d' +:+ s2)
    | _ => (ds, s2)
    end in
  match ip with
  | EmptyString => None
  | _ =>
      let '(frac, s4) :=
        match s3 with
        | String "." r =>
            match take_digits r with
            | (EmptyString, _) => (EmptyString, s3)
            | (fd, r') => (String "." fd, r')
            end
        | _ => (EmptyString, s3)
        end in
      let exponent (mark : string) (r : string) :=
        let '(sg, r1) :=
          match r with
          | String "+" r' => ("+", r')
          | String "-" r' => ("-", r')
          | _ => (EmptyString, r)
          end in
        match take_digits r1 with
        | (EmptyString, _) => (EmptyString, s4)
        | (ed, r') => (mark +:+ sg +:+ ed, r')
        end in
      let '(ex, s5) :=
        match s4 with
        | String "e" r => exponent "e" r
        | String "E" r => exponent "E" r
        | _ => (EmptyString, s4)
        end in
      match frac, ex with
      | EmptyString, EmptyString =>
          match Py.digits ip 0 false with
          | Some z => Some (JInt (if String.eqb sign "-" then - z else z), s3)
          | None => None
          end
      | _, _ => Some (JFloat (sign +:+ ip +:+ frac +:+ ex), s5)
      end
  end.

Definition literal (s : string) : option (json * string) :=
  if Py.startswith s "true" then Some (JBool true, Py.slice_from 4 s)
  else if Py.startswith s "false" then Some (JBool false, Py.slice_from 5 s)
  else if Py.startswith s "null" then Some (JNull, Py.slice_from 4 s)
  else if Py.startswith s "NaN" then Some (JFloat "NaN", Py.slice_from 3 s)
  else if Py.startswith s "Infinity" then Some (JFloat "Infinity", Py.slice_from 8 s)
  else if Py.startswith s "-Infinity" then Some (JFloat "-Infinity", Py.slice_from 9 s)
  else number s.

(** [value], [elements] and [members] start at a character that is not
    whitespace; [fuel] bounds the number of nested calls. *)
Fixpoint value (fuel : nat) (s : string) : option (json * string) :=
  match fuel with
  | O => None
  | S fuel' =>
      match s with
      | EmptyString => None
      | String c r =>
          if Ascii.eqb c dquote then
            match string_body r with
            | Some (t, r') => Some (JStr t, r')
            | None => None
            end
          else if Ascii.eqb c "[" then
            match skip_ws r with
            | String "]" r' => Some (JArr [], r')
            | r1 =>
                match elements fuel' r1 with
                | Some (l, r') => Some (JArr l, r')
                | None => None
                end
            end
          else if Ascii.eqb c "{" then
            match skip_ws r with
            | String "}" r' => Some (JObj [], r')
            | r1 =>
                match members fuel' r1 with
                | Some (l, r') => Some (JObj l, r')
                | None => None
                end
            end
          else literal s
      end
  end
with elements (fuel : nat) (s : string) : option (list json * string) :=
  match fuel with
  | O => None
  | S fuel' =>
      match value fuel' s with
      | Some (v, r) =>
          match skip_ws r with
          | String "," r' =>
              match elements fuel' (skip_ws r') with
              | Some (l, r'') => Some (v :: l, r'')
              | None => None
              end
          | String "]" r' => Some ([v], r')
          | _ => None
          end
      | None => None
      end
  end
with members (fuel : nat) (s : string) : option (list (string * json) * string) :=
  match fuel with
  | O => None
  | S fuel' =>
      match s with
      | String c r =>
          if Ascii.eqb c dquote then
            match string_body r with
            | Some (k, r1) =>
                match skip_ws r1 with
                | String ":" r2 =>
                    match value fuel' (skip_ws r2) with
                    | Some (v, r3) =>
                        match skip_ws r3 with
                        | String "," r4 =>
                            match members fuel' (skip_ws r4) with
                            | Some (l, r5) => Some ((k, v) :: l, r5)
                            | None => None
                            end
                        | String "}" r4 => Some ([(k, v)], r4)
                        | _ => None
                        end
                    | None => None
                    end
                | _ => None
                end
            | None => None
            end
          else None
      | EmptyString => None
      end
  end.

Definition loads (s : string) : option json :=
  match value (2 * String.length s + 2) (skip_ws s) with
  | Some (v, r) =>
      match skip_ws r with
      | EmptyString => Some v
      | _ => None
      end
  | None => None
  end.

End Json.

(** The response text of the worked example of the specification. *)
Definition example_response : string :=
  "Here you go:" +:+ Py.newline
  +:+ "[{" +:+ String Json.dquote "line" +:+ String Json.dquote ": 2, "
  +:+ String Json.dquote "content" +:+ String Json.dquote ": "
  +:+ String Json.dquote "Consider renaming." +:+ String Json.dquote "}]"
  +:+ Py.newline +:+ "Thanks".

(** ** The shape of a unified diff

    The notions the properties below are stated with: the header lines, the
    blocks of lines that belong to one file, the hunks of a block, and what
    makes a diff text well formed. *)

Definition is_file_header (line : string) : bool :=
  Py.startswith line "diff --git".

Definition is_hunk_header (line : string) : bool :=
  Py.startswith line "@@".

(** The key a file header gives: the fourth token without its two leading
    characters. *)
Definition header_path (line : string) : option string :=
  let parts := Py.split " " line in
  if (4 <=? length parts)%nat
  then Some (Py.slice_from 2 (nth 3 parts EmptyString))
  else None.

Definition wf_file_header (line : string) : bool :=
  match header_path line with
  | Some (String _ _) => true
  | _ => false
  end.

(** The old and new start of a hunk header with readable numbers. *)
Definition hunk_header_starts (line : string) : option (Z * Z) :=
  let parts := Py.split " " line in
  if (3 <=? length parts)%nat then
    match hunk_start (nth 1 parts EmptyString),
          hunk_start (nth 2 parts EmptyString) with
    | Ok o, Ok n => Some (o, n)
    | _, _ => None
    end
  else None.

(** The lines up to the next header. *)
Fixpoint until_header (is_header : string -> bool) (lines : list string)
  : list string :=
  match lines with
  | [] => []
  | l :: r => if is_header l then [] else l :: until_header is_header r
  end.

(** The lines from the next header on. *)
Fixpoint from_header (is_header : string -> bool) (lines : list string)
  : list string :=
  match lines with
  | [] => []
  | l :: r => if is_header l then lines else from_header is_header r
  end.

(** The blocks of a diff: a file header with the lines that follow it. *)
Fixpoint file_blocks (lines : list string) : list (list string) :=
  match lines with
  | [] => []
  | l :: r =>
      if is_file_header l
      then (l :: until_header is_file_header r) :: file_blocks r
      else file_blocks r
  end.

Record hunk : Type := mkHunk {
  old_start : Z;
  new_start : Z;
  body : list string
}.

(** The hunks of a block: a readable hunk header with the lines up to the
    next hunk header. *)
Fixpoint hunks_of (lines : list string) : list hunk :=
  match lines with
  | [] => []
  | l :: r =>
      if is_hunk_header l then
        match hunk_header_starts l with
        | Some (o, n) => mkHunk o n (until_header is_hunk_header r) :: hunks_of r
        | None => hunks_of r
        end
      else hunks_of r
  end.

(** A body line stands for a line of the new file unless it is a deletion
    or the no-newline marker, and for a line of the old file unless it is
    an addition or the marker. *)
Definition counts_new (line : string) : bool :=
  negb (Py.startswith line "-") && negb (Py.startswith line "\").

Definition counts_old (line : string) : bool :=
  negb (Py.startswith line "+") && negb (Py.startswith line "\").

Definition new_count (lines : list string) : Z :=
  Z.of_nat (length (List.filter counts_new lines)).

Definition old_count (lines : list string) : Z :=
  Z.of_nat (length (List.filter counts_old lines)).

(** Along one axis, each hunk ends before the next one starts. *)
Fixpoint ascending_by (start count : hunk -> Z) (hs : list hunk) : bool :=
  match hs with
  | h1 :: rest =>
      match rest with
      | h2 :: _ => start h1 + count h1 <=? start h2
      | [] => true
      end && ascending_by start count rest
  | [] => true
  end.

(** Hunks come in file order and do not overlap, in the old file and in the
    new file. *)
Definition ascending (hs : list hunk) : bool :=
  ascending_by old_start (fun h => old_count (body h)) hs
  && ascending_by new_start (fun h => new_count (body h)) hs.

Definition readable_hunk_header (line : string) : bool :=
  implb (is_hunk_header line)
        (match hunk_header_starts line with Some _ => true | None => false end).

Definition well_formed_file (block : list string) : bool :=
  forallb readable_hunk_header block && ascending (hunks_of block).

Definition wf_file_headers (lines : list string) : bool :=
  forallb (fun l => implb (is_file_header l) (wf_file_header l)) lines.

(** A well-formed unified diff: every file header names a path, every hunk
    header has readable start numbers, and the hunks of a file ascend. *)
Definition well_formed_diff (diff_content : string) : bool :=
  let lines := Py.split Py.nl diff_content in
  wf_file_headers lines && forallb well_formed_file (file_blocks lines).

(** The line numbers a change list carries. *)
Definition new_num (c : LineChange) : option Z :=
  match c with
  | Addition n _ => Some n
  | Context _ n _ => Some n
  | Deletion _ _ => None
  end.

Definition old_num (c : LineChange) : option Z :=
  match c with
  | Deletion n _ => Some n
  | Context n _ _ => Some n
  | Addition _ _ => None
  end.

Definition new_nums (cs : list LineChange) : list Z := omap new_num cs.
Definition old_nums (cs : list LineChange) : list Z := omap old_num cs.

(** The change list of a hunk body read from given counters. *)
Fixpoint body_changes (o n : Z) (lines : list string) : list LineChange :=
  match lines with
  | [] => []
  | l :: r =>
      if Py.startswith l "+" then
        Addition n (Py.slice_from 1 l) :: body_changes o (n + 1) r
      else if Py.startswith l "-" then
        Deletion o (Py.slice_from 1 l) :: body_changes (o + 1) n r
      else if Py.startswith l "\" then body_changes o n r
      else Context o n (Py.slice_from 1 l) :: body_changes (o + 1) (n + 1) r
  end.

Definition hunk_changes (h : hunk) : list LineChange :=
  body_changes (old_start h) (new_start h) (body h).

(** The new-file line number each patch line carries in the walk of the
    position mapper: none for a hunk header and for a line starting with
    [-], the running counter for every other line. *)
Fixpoint carried_lines (patch_lines : list string) (current_line : Z)
  : result (list (option Z)) :=
  match patch_lines with
  | [] => Ok []
  | l :: rest =>
      if Py.startswith l "@@" then
        let parts := Py.split " " l in
        if (3 <=? length parts)%nat then
          c <~ hunk_start (nth 2 parts EmptyString) ;;
          t <~ carried_lines rest c ;; Ok (None :: t)
        else t <~ carried_lines rest current_line ;; Ok (None :: t)
      else if Py.startswith l "-" then
        t <~ carried_lines rest current_line ;; Ok (None :: t)
      else
        t <~ carried_lines rest
               (if Py.startswith l "\" then current_line else current_line + 1) ;;
        Ok (Some current_line :: t)
  end.

(** The key of a block: the path its header gives. *)
Definition block_path (block : list string) : string :=
  match block with
  | h :: _ => default EmptyString (header_path h)
  | [] => EmptyString
  end.

(** The entries the blocks of a diff leave in the mapping, one after the
    other: a later block with the same path replaces the earlier entry. *)
Fixpoint save_blocks (blocks : list (list string)) (d : gmap string DiffFile)
  : result (gmap string DiffFile) :=
  match blocks with
  | [] => Ok d
  | b :: bs =>
      ch <~ _extract_line_changes b ;;
      save_blocks bs (<[block_path b := mkDiffFile (Py.join Py.newline b) ch]> d)
  end.

(** ** The worked examples *)

(** The diff text of the example of the specification. *)
Definition example_diff : string :=
  "diff --git a/f.py b/f.py" +:+ Py.newline
  +:+ "@@ -1,2 +1,3 @@" +:+ Py.newline
  +:+ " context" +:+ Py.newline
  +:+ "+added line" +:+ Py.newline
  +:+ "-removed line" +:+ Py.newline.

(** A diff of two files, the second with two hunks and a no-newline marker:
    the text from the first file header up to the second one, and the text
    from the second file header on. *)
Definition x_slice : string :=
  "diff --git a/x.py b/x.py" +:+ Py.newline
  +:+ "index 1..2 100644" +:+ Py.newline
  +:+ "--- a/x.py" +:+ Py.newline
  +:+ "+++ b/x.py" +:+ Py.newline
  +:+ "@@ -1,2 +1,2 @@" +:+ Py.newline
  +:+ " keep" +:+ Py.newline
  +:+ "-old" +:+ Py.newline
  +:+ "+new" +:+ Py.newline.

Definition y_slice : string :=
  "diff --git a/y.py b/y.py" +:+ Py.newline
  +:+ "@@ -3 +3,2 @@" +:+ Py.newline
  +:+ " a" +:+ Py.newline
  +:+ "+b" +:+ Py.newline
  +:+ "@@ -10,2 +11 @@" +:+ Py.newline
  +:+ "-c" +:+ Py.newline
  +:+ "-d" +:+ Py.newline
  +:+ "+e" +:+ Py.newline
  +:+ "\ No newline at end of file".

Definition two_file_diff : string := x_slice +:+ y_slice.

(** A platform that accepts every comment, with one pull request of one
    file [x.py]. *)
Definition example_pull_request : PullRequest :=
  mkPullRequest
    (Ok [mkPRFile "x.py" (Some ("@@ -1,2 +1,2 @@" +:+ Py.newline +:+ " keep"
                                +:+ Py.newline +:+ "-old" +:+ Py.newline +:+ "+new"))])
    (Ok "c0ffee")
    (fun _ _ _ _ => None)
    (fun _ => None).

Definition example_github : Github := mkGithub (fun _ _ => Ok example_pull_request).

(** A platform that rejects every review comment and accepts issue comments. *)
Definition review_rejecting_github : Github :=
  mkGithub (fun _ _ =>
    Ok (mkPullRequest (get_files example_pull_request)
                      (last_commit example_pull_request)
                      (fun _ _ _ _ => Some GithubException)
                      (fun _ => None))).

(** ** Further notions for the parser and the position mapper *)


(** The no-newline marker. *)
Definition is_marker (line : string) : bool := Py.startswith line "\".

(** A line that starts with [+] or [-] and is no hunk header. *)
Definition plus_minus (line : string) : bool :=
  negb (is_hunk_header line)
  && (Py.startswith line "+" || Py.startswith line "-").

(** An addition or deletion record written back as a diff line. *)
Definition render (c : LineChange) : option string :=
  match c with
  | Addition _ text => Some ("+" +:+ text)
  | Deletion _ text => Some ("-" +:+ text)
  | Context _ _ _ => None
  end.

(** The hunks that follow the lines read so far come after them in the new
    file: [cur] is the new line counter and [rest] the lines still to read. *)
Definition new_ascending_from (cur : Z) (rest : list string) : bool :=
  match hunks_of rest with
  | h :: _ => cur + new_count (until_header is_hunk_header rest) <=? new_start h
  | [] => true
  end
  && ascending_by new_start (fun h => new_count (body h)) (hunks_of rest).

(** ** github_commenter.py: the summary comment *)


(** The number of comments in the analysis results. *)
Definition count_comments (analysis_results : list (string * list ReviewComment))
  : nat :=
  length (concat (map snd analysis_results)).

(** ** llm_analyzer.py: the analysis of the diffs *)

(** *** The library functions the analyzer uses *)

(** [c.lower()] for a code point below 256: the letters A to Z and the
    capital letters of Latin-1 (192 to 222 without the sign 215). *)
Definition lower_char (c : ascii) : ascii :=
  let n := nat_of_ascii c in
  if ((65 <=? n) && (n <=? 90)
      || (192 <=? n) && (n <=? 222) && negb (n =? 215))%nat
  then ascii_of_nat (n + 32) else c.

(** [s.lower()] *)
Fixpoint lower (s : string) : string :=
  match s with
  | EmptyString => EmptyString
  | String c s' => String (lower_char c) (lower s')
  end.

Fixpoint only_dots (s : string) : bool :=
  match s with
  | EmptyString => true
  | String c s' => Ascii.eqb c "." && only_dots s'
  end.

(** [os.path.splitext(p)] of [posixpath]: the extension starts at the last
    dot of the last path component, unless only dots precede it there. *)
Definition splitext (p : string) : string * string :=
  let sepIndex := Py.rfind "/" p in
  let dotIndex := Py.rfind "." p in
  if (sepIndex <? dotIndex)
     && negb (only_dots (Py.slice (sepIndex + 1) dotIndex p))
  then (Py.slice_to (Z.to_nat dotIndex) p, Py.slice_from (Z.to_nat dotIndex) p)
  else (p, EmptyString).

(** A dictionary whose order of iteration matters is kept as the list of
    its items.  [d.get(k)]: *)
Fixpoint dict_get {V : Type} (k : string) (d : list (string * V)) : option V :=
  match d with
  | [] => None
  | (k', v) :: d' => if String.eqb k' k then Some v else dict_get k d'
  end.

(** [d[k] = v]: the value of a key that is there is replaced in place, a
    new key is added at the end. *)
Fixpoint dict_set {V : Type} (k : string) (v : V) (d : list (string * V))
  : list (string * V) :=
  match d with
  | [] => [(k, v)]
  | (k', v') :: d' =>
      if String.eqb k' k then (k, v) :: d' else (k', v') :: dict_set k v d'
  end.

(** *** The language of a file *)

Definition extension_map : list (string * string) :=
  [ (".py", "Python"); (".js", "JavaScript"); (".ts", "TypeScript");
    (".jsx", "React JSX"); (".tsx", "React TSX"); (".java", "Java");
    (".c", "C"); (".cpp", "C++"); (".cs", "C#"); (".go", "Go");
    (".rb", "Ruby"); (".php", "PHP"); (".swift", "Swift"); (".kt", "Kotlin");
    (".rs", "Rust"); (".html", "HTML"); (".css", "CSS"); (".scss", "SCSS");
    (".md", "Markdown"); (".json", "JSON"); (".yml", "YAML");
    (".yaml", "YAML"); (".xml", "XML"); (".sh", "Shell"); (".bat", "Batch");
    (".ps1", "PowerShell") ].

Definition _get_language_from_extension (extension : string) : string :=
  default "Unknown" (dict_get (lower extension) extension_map).

(** *** The prompt *)

(** The f-string of [_create_analysis_prompt], line by line; it starts and
    ends with a newline.  The list of additions is not used. *)
Definition _create_analysis_prompt (file_path language : string)
    (additions : list LineChange) (full_diff : string) : string :=
  Py.join Py.newline
    [ EmptyString;
      "Analyze the following code changes in the file `" +:+ file_path
        +:+ "` (" +:+ language +:+ ").";
      EmptyString;
      "Here's the full diff:";
      "```diff";
      full_diff;
      "```";
      EmptyString;
      "Focus on the added lines and provide specific, actionable feedback on:";
      "1. Code quality issues";
      "2. Potential bugs or edge cases";
      "3. Performance concerns";
      "4. Security vulnerabilities";
      "5. Best practices and style improvements";
      EmptyString;
      "For each issue, specify:";
      "1. The line number";
      "2. A clear description of the issue";
      "3. A suggested improvement";
      EmptyString;
      "Format your response as a JSON array of objects with the following structure:";
      "[";
      "  {";
      "    " +:+ String Json.dquote "line" +:+ String Json.dquote ": <line_number>,";
      "    " +:+ String Json.dquote "content" +:+ String Json.dquote ": "
        +:+ String Json.dquote "Your comment here" +:+ String Json.dquote EmptyString;
      "  },";
      "  ...";
      "]";
      EmptyString;
      "Only include comments that are valuable and actionable. If there are no issues to report, return an empty array [].";
      EmptyString ].

Definition system_prompt : string :=
  "You are a helpful code reviewer. Analyze the code changes and provide constructive feedback.".

(** *** The provider *)

(** A request to the provider, by the client method that sends it; every
    request is sent with temperature 0.3 and at most 2000 tokens. *)
Inductive request : Type :=
| ChatCompletions (model system user : string)  (* [client.chat.completions.create] *)
| MessagesCreate (model system user : string)   (* [client.messages.create] *)
| GenerateText (model prompt : string).         (* [client.generate_text] *)

(** The fields of the analyzer that [__init__] sets from the environment. *)
Record LLMAnalyzer : Type := mkLLMAnalyzer {
  provider : string;
  model : string
}.

Definition is_addition (change : LineChange) : bool :=
  match change with
  | Addition _ _ => true
  | _ => false
  end.

Section Analyzer.

(** [json.loads]; [None] stands for [json.JSONDecodeError]. *)
Variable loads : string -> option json.

(** The provider: the text of its response to a request, after the
    requests sent before ([None] when the response carries no text), or
    the exception of the call. *)
Variable respond : list request -> request -> result (option string).

(** Sending a request and parsing the text of the response; the first
    component is the list of the requests sent so far. *)
Definition call (history : list request) (req : request)
  : list request * result (list json) :=
  (history ++ [req],
   analysis_text <~ respond history req ;;
   match analysis_text with
   | Some t => _parse_analysis_response loads t
   | None => Raise AttributeError
   end).

Definition _call_openai (self : LLMAnalyzer) (history : list request)
    (system_prompt user_prompt : string) :=
  call history (ChatCompletions (model self) system_prompt user_prompt).

Definition _call_anthropic (self : LLMAnalyzer) (history : list request)
    (system_prompt user_prompt : string) :=
  call history (MessagesCreate (model self) system_prompt user_prompt).

Definition _call_google (self : LLMAnalyzer) (history : list request)
    (system_prompt user_prompt : string) :=
  let combined_prompt :=
    system_prompt +:+ Py.newline +:+ Py.newline +:+ user_prompt in
  call history (GenerateText (model self) combined_prompt).

Definition _call_azure_openai (self : LLMAnalyzer) (history : list request)
    (system_prompt user_prompt : string) :=
  call history (ChatCompletions (model self) system_prompt user_prompt).

(** [_analyze_file_diff]: every exception of the call is caught and gives
    the empty list. *)
Definition _analyze_file_diff (self : LLMAnalyzer) (history : list request)
    (file_path : string) (diff_info : DiffFile) : list request * list json :=
  let additions := List.filter is_addition (file_changes diff_info) in
  match additions with
  | [] => (history, [])
  | _ :: _ =>
      let '(_, ext) := splitext file_path in
      let language := _get_language_from_extension ext in
      let prompt :=
        _create_analysis_prompt file_path language additions
                                (content diff_info) in
      let '(history', r) :=
        if String.eqb (provider self) "openai" then
          _call_openai self history system_prompt prompt
        else if String.eqb (provider self) "anthropic" then
          _call_anthropic self history system_prompt prompt
        else if String.eqb (provider self) "google" then
          _call_google self history system_prompt prompt
        else if String.eqb (provider self) "azure_openai" then
          _call_azure_openai self history system_prompt prompt
        else (history, Raise ValueError) in
      match r with
      | Ok comments => (history', comments)
      | Raise _ => (history', [])
      end
  end.

(** The loop of [analyze_diffs] over the items of [diffs]. *)
Fixpoint analyze_items (self : LLMAnalyzer) (history : list request)
    (items : list (string * DiffFile)) (results : list (string * list json))
  : list request * list (string * list json) :=
  match items with
  | [] => (history, results)
  | (file_path, diff_info) :: items' =>
      match file_changes diff_info with
      | [] => analyze_items self history items' results
      | _ :: _ =>
          let '(history', file_analysis) :=
            _analyze_file_diff self history file_path diff_info in
          match file_analysis with
          | [] => analyze_items self history' items' results
          | _ :: _ =>
              analyze_items self history' items'
                            (dict_set file_path file_analysis results)
          end
      end
  end.

(** [analyze_diffs]: the requests sent and the results. *)
Definition analyze_diffs (self : LLMAnalyzer) (diffs : list (string * DiffFile))
  : list request * list (string * list json) :=
  analyze_items self [] diffs [].

End Analyzer.

(** A file with at least one added line. *)
Definition has_addition (item : string * DiffFile) : bool :=
  existsb is_addition (file_changes (snd item)).

(** The request that goes out for a file. *)
Definition request_for (self : LLMAnalyzer) (item : string * DiffFile)
  : option request :=
  let prompt :=
    _create_analysis_prompt (fst item)
      (_get_language_from_extension (snd (splitext (fst item))))
      (List.filter is_addition (file_changes (snd item)))
      (content (snd item)) in
  if String.eqb (provider self) "openai"
     || String.eqb (provider self) "azure_openai" then
    Some (ChatCompletions (model self) system_prompt prompt)
  else if String.eqb (provider self) "anthropic" then
    Some (MessagesCreate (model self) system_prompt prompt)
  else if String.eqb (provider self) "google" then
    Some (GenerateText (model self)
            (system_prompt +:+ Py.newline +:+ Py.newline +:+ prompt))
  else None.

(** The last path component. *)
Definition basename (p : string) : string :=
  Py.slice_from (Z.to_nat (Py.rfind "/" p + 1)) p.

(** ** app.py: from the analysis results to the publishing loop *)

(** [comment[k]] on a decoded object: the value of the last member with
    the key. *)
Definition get_item (k : string) (v : json) : option json :=
  match v with
  | JObj members =>
      snd <$> last (List.filter (fun m => String.eqb (fst m) k) members)
  | _ => None
  end.

(** The arguments the loop takes from a comment whose line is an integer
    and whose content is a string. *)
Definition review_comment (comment : json) : option ReviewComment :=
  match get_item "line" comment, get_item "content" comment with
  | Some (JInt n), Some (JStr s) => Some (mkComment n s)
  | _, _ => None
  end.

Definition review_comments (analysis_results : list (string * list json))
  : option (list (string * list ReviewComment)) :=
  mapM (fun r => pair (fst r) <$> mapM review_comment (snd r)) analysis_results.

(** ** github_handler.py: fetching the diff *)

(** What [requests.get] answers. *)
Record Response : Type := mkResponse {
  status_code : Z;
  response_text : string
}.

(** The pull request as the handler uses it. *)
Record PullDetails : Type := mkPullDetails {
  diff_url : string
}.

(** The handler and the two services it talks to:
    [self.github.get_repo(repo_name).get_pull(pr_number)] and
    [requests.get(url, headers={'Authorization': authorization})]. *)
Record GithubHandler : Type := mkGithubHandler {
  github_token : string;
  repo_get_pull : string -> Z -> result PullDetails;
  requests_get : string -> string -> result Response
}.

Section Handler.

(** [str(e)] for the exceptions of the libraries. *)
Variable str_library : exn -> string.

Definition str_exn (e : exn) : string :=
  match e with
  | PlainException msg => msg
  | _ => str_library e
  end.

Definition get_pr_details (self : GithubHandler) (repo_name : string)
    (pr_number : Z) : result PullDetails :=
  match repo_get_pull self repo_name pr_number with
  | Ok pull_request => Ok pull_request
  | Raise GithubException =>
      Raise (PlainException
               ("Failed to get PR details: " +:+ str_exn GithubException))
  | Raise e => Raise e
  end.

Definition get_pr_diffs (self : GithubHandler) (repo_name : string)
    (pr_number : Z) : result (gmap string DiffFile) :=
  match (pull_request <~ get_pr_details self repo_name pr_number ;;
         let authorization := "token " +:+ github_token self in
         response <~ requests_get self (diff_url pull_request) authorization ;;
         if negb (status_code response =? 200) then
           Raise (PlainException
                    ("Failed to get PR diff: "
                     +:+ str_of_Z (status_code response)))
         else _parse_diff_content (response_text response)) with
  | Ok diffs => Ok diffs
  | Raise e => Raise (PlainException ("Failed to get PR diffs: " +:+ str_exn e))
  end.

End Handler.

(** ** llm_analyzer.py: the construction of the analyzer *)

Section Init.

(** [os.getenv]; [None] when the variable is not set. *)
Variable getenv : string -> option string.

(** Whether the package of a provider can be imported and its client be
    built. *)
Variable client_available : string -> bool.

(** [LLMAnalyzer.__init__]; [None] stands for the exception that leaves it:
    the [ImportError] of a missing package, the exception of a client, or
    the [ValueError] for a missing Azure endpoint or an unsupported
    provider. *)
Definition LLMAnalyzer_init (api_key : string) : option LLMAnalyzer :=
  let provider := lower (default "openai" (getenv "LLM_PROVIDER")) in
  let model := default "gpt-4-turbo" (getenv "LLM_MODEL") in
  let self := mkLLMAnalyzer provider model in
  if String.eqb provider "openai" then
    if client_available "openai" then Some self else None
  else if String.eqb provider "anthropic" then
    if client_available "anthropic" then Some self else None
  else if String.eqb provider "google" then
    if client_available "google" then Some self else None
  else if String.eqb provider "azure_openai" then
    if client_available "azure_openai" then
      match getenv "AZURE_OPENAI_ENDPOINT" with
      | None | Some EmptyString => None
      | Some _ => Some self
      end
    else None
  else None.

End Init.

(** An environment that names the provider in capital letters. *)
Definition example_env (name : string) : option string :=
  if String.eqb name "LLM_PROVIDER" then Some "OpenAI" else None.

(** An analyzer, and a provider that answers every request with the
    response of the worked example. *)
Definition example_analyzer : LLMAnalyzer := mkLLMAnalyzer "openai" "gpt-4-turbo".

Definition example_respond (history : list request) (req : request)
  : result (option string) :=
  Ok (Some example_response).

(** The items of a diff of two files: [gone.txt] loses a line, [x.py] has
    one line replaced. *)
Definition example_diffs : list (string * DiffFile) :=
  [ ("gone.txt",
     mkDiffFile ("diff --git a/gone.txt b/gone.txt" +:+ Py.newline
                 +:+ "@@ -1 +0,0 @@" +:+ Py.newline +:+ "-bye")
                [Deletion 1 "bye"]);
    ("x.py",
     mkDiffFile ("diff --git a/x.py b/x.py" +:+ Py.newline
                 +:+ "@@ -1,2 +1,2 @@" +:+ Py.newline +:+ " keep"
                 +:+ Py.newline +:+ "-old" +:+ Py.newline +:+ "+new")
                [Context 1 1 "keep"; Deletion 2 "old"; Addition 2 "new"]) ].


(** * Properties *)

(** ** The [result] monad and [foldM] *)

Lemma foldM_app {S A : Type} (f : S -> A -> result S) (l1 l2 : list A) (s : S) :
  foldM f (l1 ++ l2) s = (s' <~ foldM f l1 s ;; foldM f l2 s').
Proof.
  revert s. induction l1 as [|x l1 IH]; intros s; simpl; [reflexivity|].
  destruct (f s x) as [s'|e]; simpl; [apply IH|reflexivity].
Qed.

Lemma foldM_id {S A : Type} (f : S -> A -> result S) (l : list A) (s : S) :
  Forall (fun x => f s x = Ok s) l -> foldM f l s = Ok s.
Proof.
  induction 1 as [|x l Hx _ IH]; simpl; [reflexivity|].
  rewrite Hx. simpl. exact IH.
Qed.

(** ** Strings *)

Lemma string_app_assoc (a b c : string) : (a +:+ b) +:+ c = a +:+ (b +:+ c).
Proof. induction a as [|x a IH]; simpl; [reflexivity|]. now rewrite IH. Qed.

Lemma string_app_nil_r (a : string) : a +:+ EmptyString = a.
Proof. induction a as [|x a IH]; simpl; [reflexivity|]. now rewrite IH. Qed.

Lemma split_not_nil (sep : ascii) (s : string) : Py.split sep s <> [].
Proof.
  destruct s as [|c s]; simpl; [discriminate|].
  destruct (Ascii.eqb c sep); [discriminate|].
  destruct (Py.split sep s); discriminate.
Qed.

(** Splitting at a separator: the lines before it, then the lines after it. *)
Lemma split_app (sep : ascii) (a b : string) :
  Py.split sep (a +:+ String sep b) = Py.split sep a ++ Py.split sep b.
Proof.
  induction a as [|c a IH]; simpl.
  - now rewrite Ascii.eqb_refl.
  - destruct (Ascii.eqb c sep); [now rewrite IH|].
    rewrite IH. pose proof (split_not_nil sep a) as Hne.
    destruct (Py.split sep a); [contradiction|reflexivity].
Qed.

(** Joining the lines of a text gives the text back. *)
Lemma join_split (sep : ascii) (s : string) :
  Py.join (String sep EmptyString) (Py.split sep s) = s.
Proof.
  induction s as [|c s IH]; simpl; [reflexivity|].
  pose proof (split_not_nil sep s) as Hne.
  destruct (Ascii.eqb c sep) eqn:E.
  - apply Ascii.eqb_eq in E. subst c.
    destruct (Py.split sep s) as [|w ws]; [contradiction|].
    simpl in *. now rewrite IH.
  - destruct (Py.split sep s) as [|w ws]; [contradiction|].
    destruct ws as [|w' ws]; simpl in *; now rewrite <- IH.
Qed.

Lemma join_app (sep : string) (l1 l2 : list string) :
  l1 <> [] -> l2 <> [] ->
  Py.join sep (l1 ++ l2) = Py.join sep l1 +:+ sep +:+ Py.join sep l2.
Proof.
  intros H1 H2. induction l1 as [|x l1 IH]; [contradiction|].
  destruct l1 as [|y l1].
  - simpl. destruct l2; [contradiction|reflexivity].
  - change (Py.join sep ((x :: y :: l1) ++ l2))
      with (x +:+ sep +:+ Py.join sep ((y :: l1) ++ l2)).
    rewrite IH by discriminate.
    change (Py.join sep (x :: y :: l1))
      with (x +:+ sep +:+ Py.join sep (y :: l1)).
    now rewrite !string_app_assoc.
Qed.

(** [find] and [rfind] give the first and the last index of a character. *)
Lemma contains_get (c : ascii) (s : string) :
  Py.contains c s = false -> forall k, String.get k s <> Some c.
Proof.
  induction s as [|a s IH]; simpl; [intros _ k; now destruct k|].
  intros H k. apply orb_false_elim in H as [Ha Hs].
  destruct k as [|k]; [|now apply IH].
  intros [= ->]. now rewrite Ascii.eqb_refl in Ha.
Qed.

Lemma find_spec (c : ascii) (s : string) :
  (Py.find c s = -1 /\ Py.contains c s = false)
  \/ (0 <= Py.find c s
      /\ String.get (Z.to_nat (Py.find c s)) s = Some c
      /\ forall k, (k < Z.to_nat (Py.find c s))%nat -> String.get k s <> Some c).
Proof.
  induction s as [|a s IH]; [now left|].
  cbn [Py.find Py.contains]. destruct (Ascii.eqb a c) eqn:E.
  - right. apply Ascii.eqb_eq in E. subst a.
    repeat split; [lia|]. intros k Hk. simpl in Hk. lia.
  - destruct IH as [[-> Hc]|(H0 & Hget & Hlow)].
    + left. now split.
    + right. destruct (Py.find c s <? 0) eqn:F; [apply Z.ltb_lt in F; lia|].
      replace (Z.to_nat (Py.find c s + 1)) with (S (Z.to_nat (Py.find c s))) by lia.
      repeat split; [lia|exact Hget|].
      intros [|k] Hk; [|apply Hlow; lia].
      simpl. intros [= ->]. now rewrite Ascii.eqb_refl in E.
Qed.

Lemma rfind_spec (c : ascii) (s : string) :
  (Py.rfind c s = -1 /\ Py.contains c s = false)
  \/ (0 <= Py.rfind c s
      /\ String.get (Z.to_nat (Py.rfind c s)) s = Some c
      /\ forall k, (Z.to_nat (Py.rfind c s) < k)%nat -> String.get k s <> Some c).
Proof.
  induction s as [|a s IH]; [now left|].
  cbn [Py.rfind Py.contains].
  destruct IH as [[-> Hc]|(H0 & Hget & Hhigh)].
  - cbn [Z.leb Z.compare]. destruct (Ascii.eqb a c) eqn:E.
    + right. apply Ascii.eqb_eq in E. subst a.
      repeat split; [lia|]. intros [|k] Hk; [simpl in Hk; lia|].
      cbn [String.get]. now apply contains_get.
    + left. now split.
  - right. destruct (0 <=? Py.rfind c s) eqn:F; [|apply Z.leb_gt in F; lia].
    replace (Z.to_nat (Py.rfind c s + 1)) with (S (Z.to_nat (Py.rfind c s))) by lia.
    repeat split; [lia|exact Hget|].
    intros [|k] Hk; [lia|]. apply Hhigh. lia.
Qed.

(** [int()] on the forms a hunk header can hold. *)
Example int_forms :
  Py.int "12" = Ok 12 /\ Py.int " 7 " = Ok 7 /\ Py.int "+3" = Ok 3
  /\ Py.int "-3" = Ok (-3) /\ Py.int "1_000" = Ok 1000 /\ Py.int "007" = Ok 7
  /\ Py.int "" = Raise ValueError /\ Py.int "x" = Raise ValueError
  /\ Py.int "1__0" = Raise ValueError /\ Py.int "_1" = Raise ValueError
  /\ Py.int "1_" = Raise ValueError /\ Py.int "+ 1" = Raise ValueError
  /\ Py.int "1.5" = Raise ValueError.
Proof. repeat split. Qed.

Example hunk_header_forms :
  hunk_header_starts "@@ -1,2 +1,3 @@" = Some (1, 1)
  /\ hunk_header_starts "@@ -10 +12,0 @@ def f():" = Some (10, 12)
  /\ hunk_header_starts "@@ -1,2" = None
  /\ hunk_header_starts "@@ -1 +x @@" = None.
Proof. repeat split. Qed.

(** ** Change extraction, line by line *)

(** Once a hunk header has been read the walk is inside a hunk for good. *)
Lemma in_hunk_after (lines : list string) (st st' : hunk_state) :
  foldM extract_step lines st = Ok st' ->
  in_hunk st' = in_hunk st || existsb is_hunk_header lines.
Proof.
  revert st. induction lines as [|l lines IH]; intros st H; simpl in *.
  - injection H as <-. now rewrite orb_false_r.
  - destruct (extract_step st l) as [s1|e] eqn:E; simpl in H; [|discriminate].
    rewrite (IH _ H). unfold extract_step, is_hunk_header in *.
    destruct (Py.startswith l "@@").
    + assert (in_hunk s1 = true) as ->.
      { destruct (3 <=? length (Py.split " " l))%nat.
        - destruct (hunk_start _); simpl in E; [|discriminate].
          destruct (hunk_start _); simpl in E; [|discriminate].
          now injection E as <-.
        - now injection E as <-. }
      now rewrite orb_true_r.
    + simpl. f_equal.
      destruct (in_hunk st) eqn:Hin; [|now injection E as <-].
      destruct (Py.startswith l "+"); [now injection E as <-|].
      destruct (Py.startswith l "-"); [now injection E as <-|].
      destruct (Py.startswith l "\"); simpl in E; injection E as <-;
        [assumption|reflexivity].
Qed.

(** Outside a hunk a line that is no hunk header leaves the state as it is. *)
Lemma extract_step_outside (st : hunk_state) (l : string) :
  in_hunk st = false -> is_hunk_header l = false -> extract_step st l = Ok st.
Proof.
  unfold extract_step, is_hunk_header. intros -> ->. reflexivity.
Qed.

Lemma run_extract_outside (pre : list string) (st : hunk_state) :
  in_hunk st = false -> existsb is_hunk_header pre = false ->
  foldM extract_step pre st = Ok st.
Proof.
  intros Hin Hpre. apply foldM_id.
  apply Forall_forall. intros l Hl. apply extract_step_outside; [assumption|].
  destruct (is_hunk_header l) eqn:E; [|reflexivity].
  assert (existsb is_hunk_header pre = true) as Hc
    by (apply existsb_exists; exists l; split; [apply list_elem_of_In|]; assumption).
  congruence.
Qed.

(** A string starts with at most one first character. *)
Lemma startswith_char (s : string) (a b : ascii) :
  Py.startswith s (String a EmptyString) = true ->
  a <> b ->
  Py.startswith s (String b EmptyString) = false.
Proof.
  destruct s as [|c s]; simpl; [discriminate|].
  destruct (Ascii.eqb a c) eqn:E; [|discriminate].
  apply Ascii.eqb_eq in E. subst c. intros _ Hne.
  destruct (Ascii.eqb b a) eqn:E'; [|reflexivity].
  apply Ascii.eqb_eq in E'. congruence.
Qed.

(** ** C1: the worked example of the parser *)

(** C1, as the code runs: parsing the example diff text gives a mapping with
    the single key [f.py]; its raw content is the whole text and its change
    list has four entries, the three of the example followed by a context
    record at old line 3 and new line 3 for the empty string that
    [split] leaves after the last newline. *)
Theorem C1_example_parse :
  _parse_diff_content example_diff =
  Ok {[ "f.py" :=
          mkDiffFile example_diff
            [Context 1 1 "context"; Addition 2 "added line";
             Deletion 2 "removed line"; Context 3 3 ""] ]}
  /\ _parse_diff_content example_diff <>
     Ok {[ "f.py" :=
             mkDiffFile example_diff
               [Context 1 1 "context"; Addition 2 "added line";
                Deletion 2 "removed line"] ]}.
Proof.
  split; [vm_compute; reflexivity|].
  intros H.
  apply (f_equal (fun r => match r with
                           | Ok m => length <$> (file_changes <$> m !! "f.py")
                           | Raise _ => None
                           end)) in H.
  vm_compute in H. discriminate.
Qed.

(** The last line that [split] hands to the loop is the empty string. *)
Lemma example_diff_lines :
  Py.split Py.nl example_diff =
  ["diff --git a/f.py b/f.py"; "@@ -1,2 +1,3 @@"; " context"; "+added line";
   "-removed line"; ""].
Proof. reflexivity. Qed.

(** ** C2: one line inside a hunk *)

(** C2, as stated, fails for a hunk header that follows an earlier one: the
    line starts with none of [+], [-] and [\], yet it yields no context
    record and the counters are set from the header instead of advancing. *)
Lemma C2_counterexample :
  let pre := ["@@ -1 +1 @@"] in
  let line := "@@ -5,2 +7,2 @@" in
  existsb is_hunk_header pre = true
  /\ Py.startswith line "+" = false
  /\ Py.startswith line "-" = false
  /\ Py.startswith line "\" = false
  /\ foldM extract_step pre extract_init = Ok (HunkState [] true 1 1)
  /\ foldM extract_step (pre ++ [line]) extract_init = Ok (HunkState [] true 5 7)
  /\ foldM extract_step (pre ++ [line]) extract_init
     <> Ok (HunkState [Context 1 1 (Py.slice_from 1 line)] true 2 2).
Proof. vm_compute. repeat split; discriminate. Qed.

(** C2, amended: for every list of diff lines [pre] that holds a hunk header
    and is read without error into the state [st], and every next line that
    is not itself a hunk header: a line starting with [+] appends one
    addition at the current new line number and advances only that counter;
    a line starting with [-] appends one deletion at the current old line
    number and advances only that counter; a line starting with [\] appends
    nothing and leaves both counters; every other line appends one context
    record with both counters and advances both. *)
Theorem C2_line_inside_hunk (pre : list string) (line : string) (st : hunk_state) :
  existsb is_hunk_header pre = true ->
  foldM extract_step pre extract_init = Ok st ->
  is_hunk_header line = false ->
  exists st',
    foldM extract_step (pre ++ [line]) extract_init = Ok st'
    /\ (Py.startswith line "+" = true ->
        changes st' = changes st ++ [Addition (new_line_num st) (Py.slice_from 1 line)]
        /\ new_line_num st' = new_line_num st + 1
        /\ old_line_num st' = old_line_num st)
    /\ (Py.startswith line "-" = true ->
        changes st' = changes st ++ [Deletion (old_line_num st) (Py.slice_from 1 line)]
        /\ old_line_num st' = old_line_num st + 1
        /\ new_line_num st' = new_line_num st)
    /\ (Py.startswith line "\" = true ->
        changes st' = changes st
        /\ old_line_num st' = old_line_num st
        /\ new_line_num st' = new_line_num st)
    /\ (Py.startswith line "+" = false -> Py.startswith line "-" = false ->
        Py.startswith line "\" = false ->
        changes st' = changes st ++ [Context (old_line_num st) (new_line_num st)
                                             (Py.slice_from 1 line)]
        /\ old_line_num st' = old_line_num st + 1
        /\ new_line_num st' = new_line_num st + 1).
Proof.
  intros Hpre Hrun Hline.
  pose proof (in_hunk_after _ _ _ Hrun) as Hin. rewrite Hpre in Hin.
  simpl in Hin.
  rewrite foldM_app, Hrun. simpl.
  unfold extract_step. unfold is_hunk_header in Hline. rewrite Hline, Hin.
  destruct (Py.startswith line "+") eqn:Hplus.
  { rewrite (startswith_char _ _ "-" Hplus), (startswith_char _ _ "\" Hplus)
      by discriminate.
    eexists; split; [reflexivity|]. repeat split; discriminate. }
  destruct (Py.startswith line "-") eqn:Hminus.
  { rewrite (startswith_char _ _ "\" Hminus) by discriminate.
    eexists; split; [reflexivity|]. repeat split; discriminate. }
  destruct (Py.startswith line "\") eqn:Hback; simpl;
    eexists; (split; [reflexivity|]); repeat split; discriminate.
Qed.

Lemma C2_line_inside_hunk_witness :
  exists st',
    foldM extract_step (["@@ -1,2 +1,3 @@"; " context"] ++ ["+added line"])
          extract_init = Ok st'
    /\ changes st' = [Context 1 1 "context"; Addition 2 "added line"]
    /\ new_line_num st' = 3 /\ old_line_num st' = 2.
Proof.
  destruct (C2_line_inside_hunk ["@@ -1,2 +1,3 @@"; " context"] "+added line"
              (HunkState [Context 1 1 "context"] true 2 2))
    as (st' & Hrun & Hplus & _); [reflexivity..|].
  exists st'. destruct (Hplus eq_refl) as (Hc & Hn & Ho).
  repeat split; assumption.
Defined.

(** ** C6: a hunk header with fewer than three tokens *)



(** ** C10: lines before the first file header *)

(** The loop of the parser stays in its first state as long as no file
    header is read. *)
Lemma parse_step_preamble (l : string) :
  is_file_header l = false -> parse_step parse_init l = Ok parse_init.
Proof. unfold parse_step, is_file_header. now intros ->. Qed.

Lemma parse_lines_preamble (pre rest : list string) :
  forallb (fun l => negb (is_file_header l)) pre = true ->
  parse_lines (pre ++ rest) = parse_lines rest.
Proof.
  intros Hpre. unfold parse_lines. rewrite foldM_app, foldM_id; [reflexivity|].
  apply Forall_forall. intros l Hl. apply parse_step_preamble.
  rewrite forallb_forall in Hpre. apply negb_true_iff, Hpre, list_elem_of_In, Hl.
Qed.

(** C10: the lines before the first [diff --git] header are discarded: a
    text that starts with lines none of which is a file header parses to
    the same mapping as the rest of the text alone, so those lines reach no
    raw content and no change list; and a text without any file header
    parses to the empty mapping. *)
Theorem C10_preamble_discarded :
  (forall pre rest : string,
      forallb (fun l => negb (is_file_header l)) (Py.split Py.nl pre) = true ->
      _parse_diff_content (pre +:+ Py.newline +:+ rest) = _parse_diff_content rest)
  /\ (forall diff_content : string,
         forallb (fun l => negb (is_file_header l)) (Py.split Py.nl diff_content) = true ->
         _parse_diff_content diff_content = Ok ∅).
Proof.
  split.
  - intros pre rest Hpre. unfold _parse_diff_content.
    change (pre +:+ Py.newline +:+ rest) with (pre +:+ String Py.nl rest).
    rewrite split_app. now apply parse_lines_preamble.
  - intros diff_content Hall. unfold _parse_diff_content.
    rewrite <- (app_nil_r (Py.split Py.nl diff_content)).
    now rewrite parse_lines_preamble.
Qed.

Lemma C10_preamble_discarded_witness :
  _parse_diff_content
    (("From: someone" +:+ Py.newline +:+ "Subject: a patch")
       +:+ Py.newline +:+ example_diff)
  = _parse_diff_content example_diff
  /\ _parse_diff_content ("no header" +:+ Py.newline +:+ "+at all") = Ok ∅.
Proof.
  split.
  - apply (proj1 C10_preamble_discarded). reflexivity.
  - apply (proj2 C10_preamble_discarded). reflexivity.
Defined.

(** ** C4: the position of the first line of the first hunk *)

(** Whether the walk of the position mapper compares a line against the
    target: it does for every line that is no hunk header and does not start
    with [-]. *)
Lemma walk_compares (l : string) :
  Py.startswith l "-" = false ->
  Py.startswith l "+" || negb (Py.startswith l "-") = true.
Proof. intros ->. apply orb_true_r. Qed.

Lemma walk_skips (l : string) :
  Py.startswith l "-" = true ->
  Py.startswith l "+" || negb (Py.startswith l "-") = false.
Proof.
  intros H. rewrite (startswith_char _ _ "+" H) by discriminate.
  now rewrite H.
Qed.

(** The lines before the first hunk header are counted by the walk as well,
    from line 0 on; it passes them without returning when the target lies
    outside the numbers they are given. *)
Lemma position_walk_preamble (pre tail : list string) (target pos cur : Z) :
  existsb is_hunk_header pre = false ->
  target < cur
  \/ cur + Z.of_nat (length (List.filter (fun p => negb (Py.startswith p "-")) pre))
     <= target ->
  exists cur',
    position_walk (pre ++ tail) target pos cur =
    position_walk tail target (pos + Z.of_nat (length pre)) cur'.
Proof.
  revert pos cur. induction pre as [|p pre IH]; intros pos cur Hpre Hcur.
  - exists cur. simpl. now rewrite Z.add_0_r.
  - simpl in Hpre. apply orb_false_elim in Hpre as [Hp Hpre].
    unfold is_hunk_header in Hp.
    cbn [app position_walk]. rewrite Hp.
    cbn [List.filter length] in Hcur.
    pose proof (walk_skips p) as Hs. pose proof (walk_compares p) as Hc.
    destruct (Py.startswith p "-") eqn:Hm.
    + rewrite (Hs eq_refl). cbn [negb] in Hcur.
      destruct (IH (pos + 1) cur Hpre Hcur) as [cur' ->].
      exists cur'. f_equal. cbn [length]. lia.
    + rewrite (Hc eq_refl). cbn [negb length] in Hcur.
      destruct (cur =? target) eqn:E; [apply Z.eqb_eq in E; lia|].
      destruct (negb (Py.startswith p "\")).
      * destruct (IH (pos + 1) (cur + 1) Hpre) as [cur' ->]; [lia|].
        exists cur'. f_equal. cbn [length]. lia.
      * destruct (IH (pos + 1) cur Hpre) as [cur' ->]; [lia|].
        exists cur'. f_equal. cbn [length]. lia.
Qed.

(** C4, as stated, fails when lines precede the first hunk header: with the
    usual four header lines of a file in front, the target 1 is met at the
    second of them, and the walk returns 2 although five lines precede the
    first line of the hunk. *)
Lemma C4_counterexample :
  let pre := ["diff --git a/f.py b/f.py"; "index 1..2 100644"; "--- a/f.py";
              "+++ b/f.py"] in
  let hdr := "@@ -1 +1 @@" in
  let l := "+x" in
  let patch := Py.join Py.newline (pre ++ [hdr; l]) in
  Py.split Py.nl patch = pre ++ [hdr; l]
  /\ existsb is_hunk_header pre = false
  /\ hunk_header_starts hdr = Some (1, 1)
  /\ Py.startswith l "+" = true
  /\ positionOf patch 1 = Ok 2
  /\ positionOf patch 1 <> Ok (Z.of_nat (length pre) + 1 + 1).
Proof. vm_compute. repeat split; discriminate. Qed.

(** C4, amended: for every patch text whose first hunk header is well formed
    with new start [n], whose next line is an addition or context line, and
    whose lines before that header are not given the number [n] by the walk
    ([n] is negative or at least the number of those lines that do not
    start with [-]; this holds whenever the header is the first line),
    [positionOf] at [n] returns the number of lines before that line plus 1,
    counting every line from 1. *)
Theorem C4_first_line_of_first_hunk
    (patch : string) (pre rest : list string) (hdr l : string) (n : Z) :
  Py.split Py.nl patch = pre ++ hdr :: l :: rest ->
  existsb is_hunk_header pre = false ->
  is_hunk_header hdr = true ->
  (3 <= length (Py.split " " hdr))%nat ->
  hunk_start (nth 2 (Py.split " " hdr) EmptyString) = Ok n ->
  is_hunk_header l = false ->
  Py.startswith l "-" = false ->
  n < 0 \/ Z.of_nat (length (List.filter (fun p => negb (Py.startswith p "-")) pre)) <= n ->
  positionOf patch n = Ok (Z.of_nat (length (pre ++ [hdr])) + 1).
Proof.
  intros Hsplit Hpre Hhdr Hlen Hn Hl Hm Hcount.
  unfold positionOf. rewrite Hsplit.
  destruct (position_walk_preamble pre (hdr :: l :: rest) n 0 0 Hpre) as [cur' ->];
    [lia|].
  unfold is_hunk_header in *.
  cbn [position_walk]. rewrite Hhdr.
  apply Nat.leb_le in Hlen. rewrite Hlen, Hn. cbn [bind].
  rewrite Hl, (walk_compares _ Hm), Z.eqb_refl.
  f_equal. rewrite length_app. cbn [length]. lia.
Qed.

Lemma C4_first_line_of_first_hunk_witness :
  positionOf ("@@ -10,2 +12,3 @@" +:+ Py.newline +:+ "+x" +:+ Py.newline +:+ " y") 12
  = Ok 2.
Proof.
  apply (C4_first_line_of_first_hunk _ [] [" y"] "@@ -10,2 +12,3 @@" "+x" 12);
    try reflexivity.
  - vm_compute. lia.
  - right. vm_compute. discriminate.
Defined.

(** ** C5: a target that no line carries *)



(** The other case: the walk returns the position of the first line that
    carries the target. *)
Lemma position_walk_found (lines : list string) (target pos cur : Z)
    (before after : list (option Z)) :
  carried_lines lines cur = Ok (before ++ Some target :: after) ->
  ~ In (Some target) before ->
  position_walk lines target pos cur = Ok (pos + Z.of_nat (length before) + 1).
Proof.
  revert pos cur before.
  induction lines as [|l lines IH]; intros pos cur before Hnums Hnot.
  - cbn in Hnums. injection Hnums as Hnil. now destruct before.
  - cbn [carried_lines position_walk] in *.
    assert (Hgo : forall c n t,
               carried_lines lines c = Ok t ->
               n :: t = before ++ Some target :: after ->
               n <> Some target ->
               position_walk lines target (pos + 1) c
               = Ok (pos + Z.of_nat (length before) + 1)).
    { intros c n t Ht Heq Hn. destruct before as [|n' before'].
      - injection Heq as -> _. contradiction.
      - injection Heq as -> ->. rewrite (IH _ _ before' Ht).
        + f_equal. cbn [length]. lia.
        + intros Hin. apply Hnot. now right. }
    clear IH.
    pose proof (walk_skips l) as Hs. pose proof (walk_compares l) as Hc.
    destruct (Py.startswith l "@@").
    + destruct (3 <=? length (Py.split " " l))%nat.
      * destruct (hunk_start _) as [c|e]; cbn [bind] in *; [|discriminate].
        destruct (carried_lines lines c) as [t|] eqn:Ht; cbn [bind] in Hnums;
          [|discriminate].
        injection Hnums as Heq. now apply (Hgo _ None t Ht).
      * destruct (carried_lines lines cur) as [t|] eqn:Ht; cbn [bind] in Hnums;
          [|discriminate].
        injection Hnums as Heq. now apply (Hgo _ None t Ht).
    + destruct (Py.startswith l "-").
      * rewrite (Hs eq_refl).
        destruct (carried_lines lines cur) as [t|] eqn:Ht; cbn [bind] in Hnums;
          [|discriminate].
        injection Hnums as Heq. now apply (Hgo _ None t Ht).
      * rewrite (Hc eq_refl).
        destruct (carried_lines lines _) as [t|] eqn:Ht; cbn [bind] in Hnums;
          [|discriminate].
        injection Hnums as Heq.
        destruct (cur =? target) eqn:E.
        { apply Z.eqb_eq in E. subst cur. destruct before as [|n' before'].
          - cbn [length]. f_equal. lia.
          - injection Heq as <- _. exfalso. apply Hnot. now left. }
        apply Z.eqb_neq in E.
        destruct (Py.startswith l "\"); cbn [negb];
          apply (Hgo _ (Some cur) t Ht Heq); congruence.
Qed.




(** ** C8: the response parser *)




(** ** C9: publishing one comment *)

(** When the platform rejects the review comment with its own exception,
    the fallback runs: one issue comment with the formatted body, and
    [False] when that is rejected too. *)
Lemma post_comment_rejected (gh : Github) (repo_name : string) (pr_number : Z)
    (file_path : string) (line_number : Z) (comment_text : string)
    (pull_request : PullRequest) :
  get_pull gh repo_name pr_number = Ok pull_request ->
  post_review_comment gh repo_name pr_number file_path line_number comment_text
  = Raise GithubException ->
  post_comment gh repo_name pr_number file_path line_number comment_text =
  match create_issue_comment pull_request
          (format_fallback file_path line_number comment_text) with
  | None => ([PostedIssue (format_fallback file_path line_number comment_text)],
             Ok true)
  | Some _ => ([], Ok false)
  end.
Proof.
  intros Hpull Hrej. unfold post_comment, _post_fallback_comment.
  rewrite Hrej, Hpull. cbn [bind].
  now destruct (create_issue_comment _ _).
Qed.

Lemma position_in_files_missing (files : list PRFile) (file_path : string)
    (line_number : Z) :
  forallb (fun f => negb (String.eqb (filename f) file_path)) files = true ->
  position_in_files files file_path line_number =
  Raise (PlainException (not_found_message file_path)).
Proof.
  induction files as [|f files IH]; simpl; [reflexivity|].
  intros H. apply andb_prop in H as [Hf Hrest].
  apply negb_true_iff in Hf. rewrite Hf. now apply IH.
Qed.

(** C9, as the code runs, against the fallback it describes: when the file of the
    comment is not in the file list of the pull request, the plain
    exception of the position mapper is not caught by [post_comment]; no
    issue comment is posted, nothing is returned, and in the loop of
    [process_pull_request] the comments after this one are never tried. *)
Theorem C9_file_not_found_escapes
    (gh : Github) (repo_name : string) (pr_number : Z) (file_path : string)
    (line_number : Z) (comment_text : string)
    (pull_request : PullRequest) (commit : string) (files : list PRFile) :
  get_pull gh repo_name pr_number = Ok pull_request ->
  last_commit pull_request = Ok commit ->
  get_files pull_request = Ok files ->
  forallb (fun f => negb (String.eqb (filename f) file_path)) files = true ->
  post_comment gh repo_name pr_number file_path line_number comment_text
  = ([], Raise (PlainException (not_found_message file_path)))
  /\ forall later,
       post_comments gh repo_name pr_number file_path
                     (mkComment line_number comment_text :: later)
       = ([], Raise (PlainException (not_found_message file_path))).
Proof.
  intros Hpull Hcommit Hfiles Hmissing.
  assert (Hpost :
            post_comment gh repo_name pr_number file_path line_number comment_text
            = ([], Raise (PlainException (not_found_message file_path)))).
  { unfold post_comment, post_review_comment, _get_position_in_diff.
    rewrite Hpull. cbn [bind]. rewrite Hcommit. cbn [bind].
    rewrite Hfiles. cbn [bind].
    now rewrite position_in_files_missing. }
  split; [exact Hpost|].
  intros later. cbn [post_comments line comment_content]. now rewrite Hpost.
Qed.

Lemma C9_file_not_found_escapes_witness :
  post_comment example_github "o/r" 7 "y.py" 3 "Consider renaming."
  = ([], Raise (PlainException "File y.py not found in the pull request"))
  /\ post_all example_github "o/r" 7
       [("y.py", [mkComment 3 "Consider renaming."]);
        ("x.py", [mkComment 2 "Looks fine."])]
     = ([], Raise (PlainException "File y.py not found in the pull request")).
Proof.
  destruct (C9_file_not_found_escapes example_github "o/r" 7 "y.py" 3
              "Consider renaming." example_pull_request "c0ffee"
              [mkPRFile "x.py" (Some ("@@ -1,2 +1,2 @@" +:+ Py.newline +:+ " keep"
                                +:+ Py.newline +:+ "-old" +:+ Py.newline +:+ "+new"))]
              eq_refl eq_refl eq_refl eq_refl) as [H1 H2].
  split; [exact H1|].
  cbn [post_all]. now rewrite H2.
Defined.

(** The sibling path at work: a rejected review comment becomes one issue
    comment whose body starts with the file and the line. *)
Example post_comment_fallback_runs :
  post_comment review_rejecting_github "o/r" 7 "x.py" 2 "Consider renaming."
  = ([PostedIssue ("**x.py:2**" +:+ Py.newline +:+ Py.newline
                   +:+ "Consider renaming.")], Ok true).
Proof. reflexivity. Qed.

(** ** The parser, block by block *)

Lemma bind_assoc {A B C : Type} (r : result A) (f : A -> result B)
    (g : B -> result C) :
  (y <~ (x <~ r ;; f x) ;; g y) = (x <~ r ;; y <~ f x ;; g y).
Proof. now destruct r. Qed.

Lemma wf_file_header_path (l : string) :
  wf_file_header l = true ->
  exists c p,
    (4 <=? length (Py.split " " l))%nat = true
    /\ Py.slice_from 2 (nth 3 (Py.split " " l) EmptyString) = String c p.
Proof.
  unfold wf_file_header, header_path.
  destruct (4 <=? length (Py.split " " l))%nat; [|discriminate].
  destruct (Py.slice_from 2 _) as [|c p]; [discriminate|].
  intros _. now exists c, p.
Qed.

(** Inside a file the loop gathers lines up to the next file header, saves
    the block and goes on with the blocks that follow. *)
Lemma parse_in_file (lines : list string) :
  wf_file_headers lines = true ->
  forall (d : gmap string DiffFile) (c : ascii) (p : string) (h : string)
         (cur : list string),
    (st <~ foldM parse_step lines (ParseState d (Some (String c p)) (h :: cur)) ;;
     save_file st)
    = (ch <~ _extract_line_changes
               ((h :: cur) ++ until_header is_file_header lines) ;;
       save_blocks (file_blocks lines)
         (<[String c p :=
              mkDiffFile
                (Py.join Py.newline ((h :: cur) ++ until_header is_file_header lines))
                ch]> d)).
Proof.
  induction lines as [|l lines IH]; intros Hwf d c p h cur.
  - cbn [foldM bind until_header file_blocks]. rewrite app_nil_r.
    unfold save_file. cbn [truthy current_file current_diff_lines diffs].
    destruct (_extract_line_changes (h :: cur)); reflexivity.
  - cbn [wf_file_headers forallb] in Hwf. apply andb_prop in Hwf as [Hl Hwf].
    fold (wf_file_headers lines) in Hwf.
    cbn [foldM until_header file_blocks]. unfold parse_step at 1.
    destruct (is_file_header l) eqn:Hh; unfold is_file_header in Hh; rewrite Hh.
    + cbn [implb] in Hl. destruct (wf_file_header_path l Hl) as (c' & p' & H4 & Hp).
      rewrite H4, Hp, app_nil_r.
      unfold save_file at 1. cbn [truthy current_file current_diff_lines diffs].
      rewrite !bind_assoc.
      destruct (_extract_line_changes (h :: cur)) as [ch|e]; cbn [bind]; [|reflexivity].
      rewrite (IH Hwf). cbn [save_blocks].
      replace (block_path (l :: until_header is_file_header lines))
        with (String c' p'); [reflexivity|].
      unfold block_path, header_path. now rewrite H4, Hp.
    + cbn [truthy current_file current_diff_lines diffs bind app].
      rewrite (IH Hwf d c p h (cur ++ [l])).
      cbn [app]. now rewrite <- !app_assoc.
Qed.

(** With well-formed file headers the parser saves the blocks of the text,
    in order. *)
Lemma parse_lines_blocks (lines : list string) :
  wf_file_headers lines = true ->
  parse_lines lines = save_blocks (file_blocks lines) ∅.
Proof.
  unfold parse_lines.
  induction lines as [|l lines IH]; intros Hwf; [reflexivity|].
  pose proof Hwf as Hwf'.
  cbn [wf_file_headers forallb] in Hwf. apply andb_prop in Hwf as [Hl Hwf].
  fold (wf_file_headers lines) in Hwf.
  cbn [foldM file_blocks]. unfold parse_step at 1.
  destruct (is_file_header l) eqn:Hh; unfold is_file_header in Hh; rewrite Hh.
  - cbn [implb] in Hl. destruct (wf_file_header_path l Hl) as (c' & p' & H4 & Hp).
    rewrite H4, Hp. cbn [save_file parse_init truthy current_file bind].
    rewrite (parse_in_file lines Hwf). cbn [save_blocks app].
    replace (block_path (l :: until_header is_file_header lines))
      with (String c' p'); [reflexivity|].
    unfold block_path, header_path. now rewrite H4, Hp.
  - cbn [parse_init truthy current_file bind]. exact (IH Hwf).
Qed.

(** Every entry of the mapping comes from a block (or was there before). *)
Lemma save_blocks_lookup (bs : list (list string)) :
  forall (d m : gmap string DiffFile) (path : string) (f : DiffFile),
    save_blocks bs d = Ok m ->
    m !! path = Some f ->
    d !! path = Some f
    \/ exists b ch,
        In b bs /\ block_path b = path /\ _extract_line_changes b = Ok ch
        /\ f = mkDiffFile (Py.join Py.newline b) ch.
Proof.
  induction bs as [|b bs IH]; intros d m path f Hsave Hm.
  - injection Hsave as <-. now left.
  - cbn [save_blocks] in Hsave.
    destruct (_extract_line_changes b) as [ch|e] eqn:Hch; cbn [bind] in Hsave;
      [|discriminate].
    destruct (IH _ _ _ _ Hsave Hm) as [Hd|(b' & ch' & Hin & Hrest)].
    + destruct (decide (block_path b = path)) as [Heq|Hne].
      * subst path. rewrite lookup_insert_eq in Hd. injection Hd as <-.
        right. exists b, ch. repeat split; [now left|assumption].
      * rewrite lookup_insert_ne in Hd by assumption. now left.
    + right. exists b', ch'. split; [now right|assumption].
Qed.

Lemma save_blocks_ok (bs : list (list string)) :
  Forall (fun b => exists ch, _extract_line_changes b = Ok ch) bs ->
  forall d, exists m, save_blocks bs d = Ok m.
Proof.
  induction 1 as [|b bs [ch Hch] _ IH]; intros d; cbn [save_blocks].
  - now exists d.
  - rewrite Hch. cbn [bind]. apply IH.
Qed.

(** ** Lines up to and from the next header *)

Lemma until_from_header (is_header : string -> bool) (lines : list string) :
  lines = until_header is_header lines ++ from_header is_header lines.
Proof.
  induction lines as [|l lines IH]; [reflexivity|].
  cbn [until_header from_header]. destruct (is_header l); [reflexivity|].
  cbn [app]. now rewrite <- IH.
Qed.

Lemma until_header_none (is_header : string -> bool) (lines : list string) :
  existsb is_header (until_header is_header lines) = false.
Proof.
  induction lines as [|l lines IH]; [reflexivity|].
  cbn [until_header]. destruct (is_header l) eqn:E; [reflexivity|].
  cbn [existsb]. now rewrite E, IH.
Qed.

Lemma from_header_head (is_header : string -> bool) (lines : list string) :
  from_header is_header lines = []
  \/ exists h rest, from_header is_header lines = h :: rest /\ is_header h = true.
Proof.
  induction lines as [|l lines IH]; [now left|].
  cbn [from_header]. destruct (is_header l) eqn:E; [|exact IH].
  right. now exists l, lines.
Qed.

(** A block of a text is a file header and the lines up to the next file
    header or the end of the text. *)
Lemma file_blocks_decompose (lines b : list string) :
  In b (file_blocks lines) ->
  exists pre hdr body post,
    lines = pre ++ (hdr :: body) ++ post
    /\ b = hdr :: body
    /\ is_file_header hdr = true
    /\ existsb is_file_header body = false
    /\ (post = [] \/ exists h rest, post = h :: rest /\ is_file_header h = true).
Proof.
  induction lines as [|l lines IH]; [intros []|].
  cbn [file_blocks]. destruct (is_file_header l) eqn:Hl.
  - intros [<-|Hin].
    + exists [], l, (until_header is_file_header lines),
        (from_header is_file_header lines).
      repeat split.
      * cbn [app]. now rewrite <- until_from_header.
      * assumption.
      * apply until_header_none.
      * apply from_header_head.
    + destruct (IH Hin) as (pre & hdr & body & post & -> & Hrest).
      exists (l :: pre), hdr, body, post. now split.
  - intros Hin. destruct (IH Hin) as (pre & hdr & body & post & -> & Hrest).
    exists (l :: pre), hdr, body, post. now split.
Qed.

(** ** Change extraction, hunk by hunk *)

Lemma hunk_header_starts_inv (l : string) (o n : Z) :
  hunk_header_starts l = Some (o, n) ->
  (3 <=? length (Py.split " " l))%nat = true
  /\ hunk_start (nth 1 (Py.split " " l) EmptyString) = Ok o
  /\ hunk_start (nth 2 (Py.split " " l) EmptyString) = Ok n.
Proof.
  unfold hunk_header_starts.
  destruct (3 <=? length (Py.split " " l))%nat; [|discriminate].
  destruct (hunk_start (nth 1 _ _)); [|discriminate].
  destruct (hunk_start (nth 2 _ _)); [|discriminate].
  intros [= -> ->]. now repeat split.
Qed.

(** Inside a hunk: the rest of the current body, then hunk after hunk. *)
Lemma extract_in_hunk (lines : list string) :
  forallb readable_hunk_header lines = true ->
  forall ch o n,
  exists o' n',
    foldM extract_step lines (HunkState ch true o n)
    = Ok (HunkState
            (ch ++ body_changes o n (until_header is_hunk_header lines)
                ++ concat (map hunk_changes (hunks_of lines)))
            true o' n').
Proof.
  induction lines as [|l lines IH]; intros Hr ch o n.
  - exists o, n. cbn. now rewrite app_nil_r.
  - cbn [forallb] in Hr. apply andb_prop in Hr as [Hl Hr].
    specialize (IH Hr).
    cbn [foldM until_header hunks_of]. unfold extract_step at 1.
    unfold readable_hunk_header in Hl.
    destruct (is_hunk_header l) eqn:Hh; unfold is_hunk_header in Hh; rewrite Hh.
    + cbn [implb] in Hl.
      destruct (hunk_header_starts l) as [[o2 n2]|] eqn:Hst; [|discriminate].
      destruct (hunk_header_starts_inv _ _ _ Hst) as (H3 & Ho & Hn).
      rewrite H3, Ho, Hn. cbn [bind changes].
      destruct (IH ch o2 n2) as (o' & n' & ->). exists o', n'.
      reflexivity.
    + cbn [in_hunk body_changes changes old_line_num new_line_num].
      destruct (Py.startswith l "+").
      { cbn [bind]. destruct (IH (ch ++ [Addition n (Py.slice_from 1 l)]) o (n + 1))
          as (o' & n' & ->).
        exists o', n'. now rewrite <- app_assoc. }
      destruct (Py.startswith l "-").
      { cbn [bind]. destruct (IH (ch ++ [Deletion o (Py.slice_from 1 l)]) (o + 1) n)
          as (o' & n' & ->).
        exists o', n'. now rewrite <- app_assoc. }
      destruct (Py.startswith l "\"); cbn [negb bind].
      { apply IH. }
      destruct (IH (ch ++ [Context o n (Py.slice_from 1 l)]) (o + 1) (n + 1))
        as (o' & n' & ->).
      exists o', n'. now rewrite <- app_assoc.
Qed.

(** With readable hunk headers the change list of a block is the change
    lists of its hunks, one after the other. *)
Lemma extract_hunks (lines : list string) :
  forallb readable_hunk_header lines = true ->
  _extract_line_changes lines = Ok (concat (map hunk_changes (hunks_of lines))).
Proof.
  unfold _extract_line_changes, extract_init.
  induction lines as [|l lines IH]; intros Hr; [reflexivity|].
  cbn [forallb] in Hr. apply andb_prop in Hr as [Hl Hr].
  cbn [foldM hunks_of]. unfold extract_step at 1.
  unfold readable_hunk_header in Hl.
  destruct (is_hunk_header l) eqn:Hh; unfold is_hunk_header in Hh; rewrite Hh.
  - cbn [implb] in Hl.
    destruct (hunk_header_starts l) as [[o2 n2]|] eqn:Hst; [|discriminate].
    destruct (hunk_header_starts_inv _ _ _ Hst) as (H3 & Ho & Hn).
    rewrite H3, Ho, Hn. cbn [bind changes].
    destruct (extract_in_hunk lines Hr [] o2 n2) as (o' & n' & ->).
    reflexivity.
  - cbn [in_hunk bind]. exact (IH Hr).
Qed.

(** ** The line numbers of a hunk *)

Lemma seqZ_step (m k : Z) : 0 <= k -> seqZ m (1 + k) = m :: seqZ (m + 1) k.
Proof.
  intros Hk. rewrite seqZ_cons by lia.
  now replace (Z.succ m) with (m + 1) by lia; replace (Z.pred (1 + k)) with k by lia.
Qed.

Lemma new_nums_body (lines : list string) (o n : Z) :
  new_nums (body_changes o n lines) = seqZ n (new_count lines).
Proof.
  revert o n. induction lines as [|l lines IH]; intros o n; [reflexivity|].
  unfold new_count, counts_new, new_nums in *.
  cbn [body_changes List.filter].
  destruct (Py.startswith l "+") eqn:Hp.
  { rewrite (startswith_char _ _ "-" Hp), (startswith_char _ _ "\" Hp) by discriminate.
    cbn [negb andb length omap list_omap new_num]. rewrite Nat2Z.inj_succ, <- Z.add_1_l.
    rewrite seqZ_step by lia. f_equal. apply IH. }
  destruct (Py.startswith l "-") eqn:Hm.
  { cbn [negb andb omap list_omap new_num]. apply IH. }
  destruct (Py.startswith l "\") eqn:Hb.
  { cbn [negb andb]. apply IH. }
  cbn [negb andb length omap list_omap new_num]. rewrite Nat2Z.inj_succ, <- Z.add_1_l.
  rewrite seqZ_step by lia. f_equal. apply IH.
Qed.

Lemma old_nums_body (lines : list string) (o n : Z) :
  old_nums (body_changes o n lines) = seqZ o (old_count lines).
Proof.
  revert o n. induction lines as [|l lines IH]; intros o n; [reflexivity|].
  unfold old_count, counts_old, old_nums in *.
  cbn [body_changes List.filter].
  destruct (Py.startswith l "+") eqn:Hp.
  { cbn [negb andb omap list_omap old_num]. apply IH. }
  destruct (Py.startswith l "-") eqn:Hm.
  { rewrite (startswith_char _ _ "\" Hm) by discriminate.
    cbn [negb andb length omap list_omap old_num]. rewrite Nat2Z.inj_succ, <- Z.add_1_l.
    rewrite seqZ_step by lia. f_equal. apply IH. }
  destruct (Py.startswith l "\") eqn:Hb.
  { cbn [negb andb]. apply IH. }
  cbn [negb andb length omap list_omap old_num]. rewrite Nat2Z.inj_succ, <- Z.add_1_l.
  rewrite seqZ_step by lia. f_equal. apply IH.
Qed.

Lemma nums_concat {B : Type} (num : LineChange -> option B)
    (segs : list (list LineChange)) :
  omap num (concat segs) = concat (map (omap num) segs).
Proof.
  induction segs as [|seg segs IH]; [reflexivity|].
  cbn [concat map]. now rewrite omap_app, IH.
Qed.

Lemma seqZ_sorted (m n : Z) : StronglySorted Z.le (seqZ m n).
Proof.
  destruct (Z.le_gt_cases n 0) as [Hn|Hn]; [rewrite seqZ_nil by lia; constructor|].
  rewrite <- (Z2Nat.id n) by lia. generalize (Z.to_nat n) as k. clear Hn n.
  intros k. revert m. induction k as [|k IH]; intros m.
  - rewrite seqZ_nil by lia. constructor.
  - rewrite Nat2Z.inj_succ, <- Z.add_1_l, seqZ_step by lia.
    constructor; [apply IH|]. apply Forall_seqZ. lia.
Qed.

(** Hunks that ascend along an axis give line numbers in ascending order,
    none below the start of the first hunk. *)
Lemma ascending_by_sorted (start count : hunk -> Z) (hs : list hunk) :
  (forall h, 0 <= count h) ->
  ascending_by start count hs = true ->
  StronglySorted Z.le (concat (map (fun h => seqZ (start h) (count h)) hs))
  /\ match hs with
     | h0 :: _ =>
         forall x, x ∈ concat (map (fun h => seqZ (start h) (count h)) hs) ->
                   start h0 <= x
     | [] => True
     end.
Proof.
  intros Hcount. induction hs as [|h1 rest IH]; intros Hasc.
  - split; [constructor|exact I].
  - cbn [ascending_by] in Hasc. apply andb_prop in Hasc as [Hnext Hasc].
    destruct (IH Hasc) as [Hsorted Hlow]. cbn [concat map]. split.
    + apply StronglySorted_app_2; [|apply seqZ_sorted|exact Hsorted].
      intros x1 x2 H1 H2. apply elem_of_seqZ in H1.
      destruct rest as [|h2 rest]; [cbn in H2; now apply elem_of_nil in H2|].
      apply Z.leb_le in Hnext. specialize (Hlow x2 H2). lia.
    + intros x Hx. apply elem_of_app in Hx as [Hx|Hx].
      * apply elem_of_seqZ in Hx. lia.
      * destruct rest as [|h2 rest]; [cbn in Hx; now apply elem_of_nil in Hx|].
        apply Z.leb_le in Hnext. specialize (Hlow x Hx).
        specialize (Hcount h1). lia.
Qed.

Lemma new_count_nonneg (lines : list string) : 0 <= new_count lines.
Proof. unfold new_count. lia. Qed.

Lemma old_count_nonneg (lines : list string) : 0 <= old_count lines.
Proof. unfold old_count. lia. Qed.

(** The numbers of a well-formed block, hunk by hunk and as a whole. *)
Lemma block_numbers (block : list string) :
  well_formed_file block = true ->
  Forall (fun h =>
            new_nums (hunk_changes h)
            = seqZ (new_start h) (Z.of_nat (length (new_nums (hunk_changes h))))
            /\ old_nums (hunk_changes h)
               = seqZ (old_start h) (Z.of_nat (length (old_nums (hunk_changes h)))))
         (hunks_of block)
  /\ Sorted Z.le (new_nums (concat (map hunk_changes (hunks_of block))))
  /\ Sorted Z.le (old_nums (concat (map hunk_changes (hunks_of block)))).
Proof.
  intros Hwf. unfold well_formed_file in Hwf.
  apply andb_prop in Hwf as [_ Hasc]. unfold ascending in Hasc.
  apply andb_prop in Hasc as [Hold Hnew].
  split; [|split].
  - apply Forall_forall. intros h _. unfold hunk_changes.
    rewrite new_nums_body, old_nums_body, !length_seqZ, !Z2Nat.id;
      auto using new_count_nonneg, old_count_nonneg.
  - apply StronglySorted_Sorted. unfold new_nums. rewrite nums_concat, map_map.
    rewrite (map_ext _ (fun h => seqZ (new_start h) (new_count (body h))))
      by (intros h; apply new_nums_body).
    apply (ascending_by_sorted new_start (fun h => new_count (body h)));
      [intros h; apply new_count_nonneg|assumption].
  - apply StronglySorted_Sorted. unfold old_nums. rewrite nums_concat, map_map.
    rewrite (map_ext _ (fun h => seqZ (old_start h) (old_count (body h))))
      by (intros h; apply old_nums_body).
    apply (ascending_by_sorted old_start (fun h => old_count (body h)));
      [intros h; apply old_count_nonneg|assumption].
Qed.

(** ** The entries of a well-formed diff *)

Lemma well_formed_file_readable (block : list string) :
  well_formed_file block = true -> forallb readable_hunk_header block = true.
Proof. unfold well_formed_file. intros H. now apply andb_prop in H. Qed.

(** A well-formed diff parses without error, and every entry of the result
    is the raw content and the change list of one of its blocks. *)
Lemma well_formed_entries (diff_content : string) :
  well_formed_diff diff_content = true ->
  exists m,
    _parse_diff_content diff_content = Ok m
    /\ forall path f,
        m !! path = Some f ->
        exists block,
          In block (file_blocks (Py.split Py.nl diff_content))
          /\ block_path block = path
          /\ well_formed_file block = true
          /\ f = mkDiffFile (Py.join Py.newline block)
                            (concat (map hunk_changes (hunks_of block))).
Proof.
  unfold well_formed_diff, _parse_diff_content.
  set (lines := Py.split Py.nl diff_content). intros Hwf.
  apply andb_prop in Hwf as [Hhdrs Hblocks].
  rewrite forallb_forall in Hblocks.
  rewrite (parse_lines_blocks lines Hhdrs).
  destruct (save_blocks_ok (file_blocks lines)) with (d := (∅ : gmap string DiffFile))
    as [m Hm].
  { apply Forall_forall. intros b Hb. apply list_elem_of_In in Hb.
    exists (concat (map hunk_changes (hunks_of b))).
    apply extract_hunks, well_formed_file_readable, Hblocks, Hb. }
  exists m. split; [exact Hm|].
  intros path f Hf.
  destruct (save_blocks_lookup _ _ _ _ _ Hm Hf) as [He|(b & ch & Hin & Hp & Hch & ->)].
  - now rewrite lookup_empty in He.
  - exists b. pose proof (Hblocks b Hin) as Hb.
    rewrite (extract_hunks b (well_formed_file_readable b Hb)) in Hch.
    injection Hch as <-. now repeat split.
Qed.

(** ** C3: the line numbers of a file entry *)

(** C3: for every well-formed unified diff the parser succeeds, and every
    file entry it produces is the entry of one block of the text whose
    change list is the concatenation of the change lists of its hunks; in
    each hunk the new line numbers of the addition and context entries are
    [newStart], [newStart + 1], ... (one step per such entry) and the old
    line numbers of the deletion and context entries are [oldStart],
    [oldStart + 1], ...; over the whole change list both sequences are
    non-decreasing. *)
Theorem C3_line_numbers (diff_content : string) :
  well_formed_diff diff_content = true ->
  exists m,
    _parse_diff_content diff_content = Ok m
    /\ forall path f,
        m !! path = Some f ->
        exists block,
          In block (file_blocks (Py.split Py.nl diff_content))
          /\ content f = Py.join Py.newline block
          /\ file_changes f = concat (map hunk_changes (hunks_of block))
          /\ Forall (fun h =>
                       new_nums (hunk_changes h)
                       = seqZ (new_start h)
                              (Z.of_nat (length (new_nums (hunk_changes h))))
                       /\ old_nums (hunk_changes h)
                          = seqZ (old_start h)
                                 (Z.of_nat (length (old_nums (hunk_changes h)))))
                    (hunks_of block)
          /\ Sorted Z.le (new_nums (file_changes f))
          /\ Sorted Z.le (old_nums (file_changes f)).
Proof.
  intros Hwf. destruct (well_formed_entries _ Hwf) as (m & Hm & Hentries).
  exists m. split; [exact Hm|].
  intros path f Hf.
  destruct (Hentries path f Hf) as (block & Hin & _ & Hblock & ->).
  exists block. cbn [content file_changes].
  destruct (block_numbers block Hblock) as (Hhunks & Hnew & Hold).
  now repeat split.
Qed.

Lemma C3_line_numbers_witness :
  exists m,
    _parse_diff_content two_file_diff = Ok m
    /\ forall path f,
        m !! path = Some f ->
        exists block,
          In block (file_blocks (Py.split Py.nl two_file_diff))
          /\ content f = Py.join Py.newline block
          /\ file_changes f = concat (map hunk_changes (hunks_of block))
          /\ Forall (fun h =>
                       new_nums (hunk_changes h)
                       = seqZ (new_start h)
                              (Z.of_nat (length (new_nums (hunk_changes h))))
                       /\ old_nums (hunk_changes h)
                          = seqZ (old_start h)
                                 (Z.of_nat (length (old_nums (hunk_changes h)))))
                    (hunks_of block)
          /\ Sorted Z.le (new_nums (file_changes f))
          /\ Sorted Z.le (old_nums (file_changes f)).
Proof. exact (C3_line_numbers two_file_diff eq_refl). Defined.

(** The entry of [y.py] in the example of two files: two hunks, the new
    numbers 3, 4 and then 11, the old numbers 3 and then 10, 11. *)
Example two_file_diff_numbers :
  match _parse_diff_content two_file_diff with
  | Ok m => file_changes <$> m !! "y.py"
  | Raise _ => None
  end
  = Some [Context 3 3 "a"; Addition 4 "b"; Deletion 10 "c"; Deletion 11 "d";
          Addition 11 "e"]
  /\ new_nums [Context 3 3 "a"; Addition 4 "b"; Deletion 10 "c"; Deletion 11 "d";
               Addition 11 "e"] = [3; 4; 11]
  /\ old_nums [Context 3 3 "a"; Addition 4 "b"; Deletion 10 "c"; Deletion 11 "d";
               Addition 11 "e"] = [3; 10; 11].
Proof. vm_compute. repeat split. Qed.

(** ** C7: the raw content of a file entry *)

Lemma wf_file_headers_elem (lines : list string) (l : string) :
  wf_file_headers lines = true -> In l lines -> is_file_header l = true ->
  wf_file_header l = true.
Proof.
  unfold wf_file_headers. rewrite forallb_forall. intros Hall Hin Hh.
  specialize (Hall l Hin). now rewrite Hh in Hall.
Qed.

(** C7, as stated, fails for a file that is followed by another one: the
    slice of the text from the header of [x.py] up to the header of [y.py]
    ends with the newline that precedes that header, and the raw content of
    the entry, the lines joined by newlines, does not. *)
Lemma C7_counterexample :
  well_formed_diff two_file_diff = true
  /\ two_file_diff = x_slice +:+ y_slice
  /\ is_file_header x_slice = true
  /\ existsb is_file_header (tl (Py.split Py.nl x_slice)) = false
  /\ is_file_header y_slice = true
  /\ exists raw,
       match _parse_diff_content two_file_diff with
       | Ok m => content <$> m !! "x.py"
       | Raise _ => None
       end = Some raw
       /\ x_slice = raw +:+ Py.newline
       /\ raw <> x_slice.
Proof.
  repeat split; try reflexivity.
  eexists. split; [vm_compute; reflexivity|]. split; [reflexivity|].
  intros H. apply (f_equal String.length) in H. vm_compute in H. discriminate.
Qed.

(** C7, amended: for every well-formed unified diff the parser succeeds,
    and for every file entry it produces the lines of the text split into
    the lines before the file header of that entry, the header with the
    lines that follow it up to the next file header or the end of the text,
    and the rest; joining the header and those lines with newlines gives the
    raw content of the entry, and the text is, byte for byte, what comes
    before (ending in a newline unless empty), the raw content, and what
    comes after (empty at the end of the text, else the newline that
    separates the raw content from the next file header, and that header
    with all that follows). *)
Theorem C7_raw_content_slice (diff_content : string) :
  well_formed_diff diff_content = true ->
  exists m,
    _parse_diff_content diff_content = Ok m
    /\ forall path f,
        m !! path = Some f ->
        exists pre hdr body post,
          Py.split Py.nl diff_content = pre ++ (hdr :: body) ++ post
          /\ is_file_header hdr = true
          /\ header_path hdr = Some path
          /\ existsb is_file_header body = false
          /\ (post = [] \/ exists h rest, post = h :: rest /\ is_file_header h = true)
          /\ content f = Py.join Py.newline (hdr :: body)
          /\ diff_content =
             match pre with
             | [] => EmptyString
             | _ :: _ => Py.join Py.newline pre +:+ Py.newline
             end
             +:+ content f
             +:+ match post with
                 | [] => EmptyString
                 | _ :: _ => Py.newline +:+ Py.join Py.newline post
                 end.
Proof.
  intros Hwf. destruct (well_formed_entries _ Hwf) as (m & Hm & Hentries).
  exists m. split; [exact Hm|].
  intros path f Hf.
  destruct (Hentries path f Hf) as (block & Hin & Hpath & _ & ->).
  destruct (file_blocks_decompose _ _ Hin)
    as (pre & hdr & body & post & Hlines & -> & Hhdr & Hbody & Hpost).
  exists pre, hdr, body, post. cbn [content].
  unfold well_formed_diff in Hwf. apply andb_prop in Hwf as [Hhdrs _].
  assert (Hwfh : wf_file_header hdr = true).
  { apply (wf_file_headers_elem _ _ Hhdrs); [|exact Hhdr].
    rewrite Hlines. apply in_or_app. right. now left. }
  repeat split; try assumption.
  - unfold wf_file_header in Hwfh. cbn [block_path] in Hpath.
    destruct (header_path hdr) as [p|]; [|discriminate].
    cbn in Hpath. now subst p.
  - rewrite <- (join_split Py.nl diff_content) at 1.
    fold Py.newline. rewrite Hlines.
    destruct pre as [|p pre], post as [|q post].
    + now rewrite app_nil_r, string_app_nil_r.
    + cbn [app]. now rewrite (join_app _ (hdr :: body) (q :: post)).
    + rewrite app_nil_r, (join_app _ (p :: pre) (hdr :: body)) by discriminate.
      now rewrite string_app_nil_r, string_app_assoc.
    + rewrite (join_app _ (p :: pre)) by discriminate.
      rewrite (join_app _ (hdr :: body) (q :: post)) by discriminate.
      now rewrite !string_app_assoc.
Qed.

Lemma C7_raw_content_slice_witness :
  exists m,
    _parse_diff_content two_file_diff = Ok m
    /\ forall path f,
        m !! path = Some f ->
        exists pre hdr body post,
          Py.split Py.nl two_file_diff = pre ++ (hdr :: body) ++ post
          /\ is_file_header hdr = true
          /\ header_path hdr = Some path
          /\ existsb is_file_header body = false
          /\ (post = [] \/ exists h rest, post = h :: rest /\ is_file_header h = true)
          /\ content f = Py.join Py.newline (hdr :: body)
          /\ two_file_diff =
             match pre with
             | [] => EmptyString
             | _ :: _ => Py.join Py.newline pre +:+ Py.newline
             end
             +:+ content f
             +:+ match post with
                 | [] => EmptyString
                 | _ :: _ => Py.newline +:+ Py.join Py.newline post
                 end.
Proof. exact (C7_raw_content_slice two_file_diff eq_refl). Defined.

(** The two entries of the example of two files. *)
Example two_file_diff_contents :
  match _parse_diff_content two_file_diff with
  | Ok m =>
      fx ← m !! "x.py"; fy ← m !! "y.py";
      Some (content fx +:+ Py.newline +:+ content fy)
  | Raise _ => None
  end = Some two_file_diff.
Proof. vm_compute. reflexivity. Qed.

(** * Further properties of the code *)

(** ** When change extraction raises *)







(** ** Lines before the first hunk header *)

(** X2: the lines of a file before its first hunk header (the file header,
    [index], [---] and [+++] lines) give no change record, also when they
    start with [+] or [-]: the change list is that of the lines from the
    first hunk header on, and a file without hunk header has the empty
    change list. *)
Theorem X2_extract_ignores_lines_before_hunk (pre rest : list string) :
  existsb is_hunk_header pre = false ->
  _extract_line_changes (pre ++ rest) = _extract_line_changes rest
  /\ _extract_line_changes pre = Ok [].
Proof.
  intros Hpre. unfold _extract_line_changes. split.
  - now rewrite foldM_app, (run_extract_outside pre extract_init eq_refl Hpre).
  - now rewrite (run_extract_outside pre extract_init eq_refl Hpre).
Qed.

Lemma X2_extract_ignores_lines_before_hunk_witness :
  _extract_line_changes
    (["diff --git a/x.py b/x.py"; "--- a/x.py"; "+++ b/x.py"]
       ++ ["@@ -1 +1 @@"; "-old"; "+new"])
  = _extract_line_changes ["@@ -1 +1 @@"; "-old"; "+new"]
  /\ _extract_line_changes
       ["diff --git a/x.py b/x.py"; "--- a/x.py"; "+++ b/x.py"] = Ok [].
Proof.
  exact (X2_extract_ignores_lines_before_hunk
           ["diff --git a/x.py b/x.py"; "--- a/x.py"; "+++ b/x.py"]
           ["@@ -1 +1 @@"; "-old"; "+new"] eq_refl).
Defined.

(** ** Additions and deletions written back *)

Lemma startswith_slice (l : string) (c : ascii) :
  Py.startswith l (String c EmptyString) = true ->
  String c (Py.slice_from 1 l) = l.
Proof.
  destruct l as [|a l]; cbn; [discriminate|].
  destruct (Ascii.eqb c a) eqn:E; [|discriminate].
  apply Ascii.eqb_eq in E. now subst a.
Qed.

Lemma render_changes (lines : list string) :
  forall st st',
    foldM extract_step lines st = Ok st' ->
    omap render (changes st')
    = omap render (changes st)
      ++ List.filter plus_minus
           (if in_hunk st then lines else from_header is_hunk_header lines).
Proof.
  induction lines as [|l lines IH]; intros st st' Hrun.
  - injection Hrun as <-. destruct (in_hunk st); cbn; now rewrite app_nil_r.
  - cbn [foldM] in Hrun.
    destruct (extract_step st l) as [s1|e] eqn:Hstep; cbn [bind] in Hrun;
      [|discriminate].
    rewrite (IH _ _ Hrun). clear IH Hrun.
    unfold extract_step in Hstep.
    assert (Hfrom : from_header is_hunk_header (l :: lines)
                    = if Py.startswith l "@@" then l :: lines
                      else from_header is_hunk_header lines) by reflexivity.
    assert (Hpm : plus_minus l
                  = negb (Py.startswith l "@@")
                    && (Py.startswith l "+" || Py.startswith l "-"))
      by reflexivity.
    rewrite Hfrom. clear Hfrom.
    destruct (Py.startswith l "@@") eqn:Hh.
    + assert (changes s1 = changes st /\ in_hunk s1 = true) as [-> ->].
      { destruct (3 <=? length (Py.split " " l))%nat.
        - destruct (hunk_start _); cbn [bind] in Hstep; [|discriminate].
          destruct (hunk_start _); cbn [bind] in Hstep; [|discriminate].
          now injection Hstep as <-.
        - now injection Hstep as <-. }
      cbn [negb andb] in Hpm.
      destruct (in_hunk st); cbn [List.filter]; now rewrite Hpm.
    + destruct (in_hunk st) eqn:Hin; [|now injection Hstep as <-; rewrite Hin].
      cbn [negb andb] in Hpm. cbn [List.filter]. rewrite Hpm. clear Hpm.
      destruct (Py.startswith l "+") eqn:Hp.
      { injection Hstep as <-. cbn [changes in_hunk orb].
        rewrite omap_app, <- app_assoc. cbn [omap list_omap render app].
        do 2 f_equal. exact (startswith_slice l "+" Hp). }
      destruct (Py.startswith l "-") eqn:Hm.
      { injection Hstep as <-. cbn [changes in_hunk orb].
        rewrite omap_app, <- app_assoc. cbn [omap list_omap render app].
        do 2 f_equal. exact (startswith_slice l "-" Hm). }
      cbn [orb]. destruct (Py.startswith l "\"); cbn [negb] in Hstep;
        injection Hstep as <-; cbn [changes in_hunk]; [now rewrite Hin|].
      rewrite omap_app. cbn [omap list_omap render]. now rewrite app_nil_r.
Qed.

(** X3: nothing is lost and nothing invented among the changed lines:
    writing each addition record back as [+] and its content and each
    deletion record as [-] and its content gives exactly the lines after the
    first hunk header that start with [+] or [-], in their order. *)
Theorem X3_additions_deletions_round_trip
    (diff_lines : list string) (ch : list LineChange) :
  _extract_line_changes diff_lines = Ok ch ->
  omap render ch
  = List.filter plus_minus (from_header is_hunk_header diff_lines).
Proof.
  unfold _extract_line_changes. intros H.
  destruct (foldM extract_step diff_lines extract_init) as [st|e] eqn:Hrun;
    cbn [bind] in H; [|discriminate].
  injection H as <-. now rewrite (render_changes _ _ _ Hrun).
Qed.

Lemma X3_additions_deletions_round_trip_witness :
  omap render
    [Context 1 1 "keep"; Deletion 2 "old"; Addition 2 "new"]
  = List.filter plus_minus
      (from_header is_hunk_header
         ["--- a/x.py"; "+++ b/x.py"; "@@ -1,2 +1,2 @@"; " keep"; "-old"; "+new";
          "\ No newline at end of file"]).
Proof.
  exact (X3_additions_deletions_round_trip
           ["--- a/x.py"; "+++ b/x.py"; "@@ -1,2 +1,2 @@"; " keep"; "-old"; "+new";
            "\ No newline at end of file"]
           [Context 1 1 "keep"; Deletion 2 "old"; Addition 2 "new"] eq_refl).
Defined.

(** ** When the parser raises *)








(** ** One entry per path *)

Lemma last_filter_cons {A : Type} (p : A -> bool) (x : A) (l : list A) :
  last (List.filter p (x :: l))
  = match last (List.filter p l) with
    | Some y => Some y
    | None => if p x then Some x else None
    end.
Proof.
  cbn [List.filter]. destruct (p x); [|now destruct (last _)].
  destruct (List.filter p l) as [|y l'] eqn:E; [reflexivity|].
  rewrite last_cons. now destruct (last (y :: l')) eqn:E'.
Qed.

Lemma save_blocks_last (bs : list (list string)) (path : string) :
  forall d m,
    save_blocks bs d = Ok m ->
    content <$> m !! path
    = match last (List.filter (fun b => String.eqb (block_path b) path) bs) with
      | Some b => Some (Py.join Py.newline b)
      | None => content <$> d !! path
      end.
Proof.
  induction bs as [|b bs IH]; intros d m Hsave.
  - now injection Hsave as <-.
  - cbn [save_blocks] in Hsave.
    destruct (_extract_line_changes b) as [ch|e]; cbn [bind] in Hsave;
      [|discriminate].
    rewrite (IH _ _ Hsave), last_filter_cons.
    destruct (last _); [reflexivity|].
    destruct (String.eqb (block_path b) path) eqn:E.
    + apply String.eqb_eq in E. subst path. now rewrite lookup_insert_eq.
    + apply String.eqb_neq in E. now rewrite lookup_insert_ne.
Qed.

(** X5: the mapping holds one entry per path: when the text has
    well-formed file headers and parses, the raw content stored under a path
    is that of the last block whose header gives this path (an earlier
    block of the same path is replaced), and a path that no header gives has
    no entry. *)
Theorem X5_last_block_of_a_path_wins
    (diff_content : string) (m : gmap string DiffFile) (path : string) :
  wf_file_headers (Py.split Py.nl diff_content) = true ->
  _parse_diff_content diff_content = Ok m ->
  content <$> m !! path
  = Py.join Py.newline
      <$> last (List.filter (fun b => String.eqb (block_path b) path)
                            (file_blocks (Py.split Py.nl diff_content))).
Proof.
  unfold _parse_diff_content. intros Hwf Hparse.
  rewrite (parse_lines_blocks _ Hwf) in Hparse.
  rewrite (save_blocks_last _ path _ _ Hparse), lookup_empty.
  now destruct (last _).
Qed.

Lemma X5_last_block_of_a_path_wins_witness :
  content <$> ({[ "x.py" := mkDiffFile ("diff --git a/x.py b/x.py" +:+ Py.newline
                                        +:+ "second") [] ]}
               : gmap string DiffFile) !! "x.py"
  = Some ("diff --git a/x.py b/x.py" +:+ Py.newline +:+ "second").
Proof.
  exact (X5_last_block_of_a_path_wins
           ("diff --git a/x.py b/x.py" +:+ Py.newline +:+ "first" +:+ Py.newline
            +:+ "diff --git a/x.py b/x.py" +:+ Py.newline +:+ "second")
           _ "x.py" eq_refl eq_refl).
Defined.

(** ** A diff of one file *)

Lemma split_no_sep (sep : ascii) (s : string) :
  Py.contains sep s = false -> Py.split sep s = [s].
Proof.
  induction s as [|c s IH]; [reflexivity|].
  cbn [Py.contains Py.split]. intros H. apply orb_false_elim in H as [Hc Hs].
  now rewrite Hc, (IH Hs).
Qed.

Lemma contains_app (c : ascii) (a b : string) :
  Py.contains c (a +:+ b) = Py.contains c a || Py.contains c b.
Proof.
  induction a as [|x a IH]; [reflexivity|].
  cbn [String.append Py.contains]. now rewrite IH, orb_assoc.
Qed.

Lemma until_header_all (is_header : string -> bool) (lines : list string) :
  existsb is_header lines = false -> until_header is_header lines = lines.
Proof.
  induction lines as [|l lines IH]; [reflexivity|].
  cbn [existsb until_header]. intros H. apply orb_false_elim in H as [-> H].
  now rewrite (IH H).
Qed.

Lemma file_blocks_none (lines : list string) :
  existsb is_file_header lines = false -> file_blocks lines = [].
Proof.
  induction lines as [|l lines IH]; [reflexivity|].
  cbn [existsb file_blocks]. intros H. apply orb_false_elim in H as [-> H].
  now apply IH.
Qed.

Lemma wf_file_headers_none (lines : list string) :
  existsb is_file_header lines = false -> wf_file_headers lines = true.
Proof.
  induction lines as [|l lines IH]; [reflexivity|].
  cbn [existsb wf_file_headers forallb]. intros H.
  apply orb_false_elim in H as [-> H]. exact (IH H).
Qed.

(** A file header that gives a path, followed by lines none of which is a
    file header: one entry under that path, holding all the lines. *)
Lemma parse_single_block (hdr : string) (rest : list string) (c : ascii)
    (p : string) :
  is_file_header hdr = true ->
  header_path hdr = Some (String c p) ->
  existsb is_file_header rest = false ->
  parse_lines (hdr :: rest)
  = (ch <~ _extract_line_changes (hdr :: rest) ;;
     Ok {[ String c p := mkDiffFile (Py.join Py.newline (hdr :: rest)) ch ]}).
Proof.
  intros Hh Hp Hrest.
  rewrite parse_lines_blocks.
  - cbn [file_blocks]. rewrite Hh, (until_header_all _ _ Hrest),
      (file_blocks_none _ Hrest).
    cbn [save_blocks block_path]. rewrite Hp. cbn [default].
    destruct (_extract_line_changes (hdr :: rest)); cbn [bind]; [|reflexivity].
    now rewrite insert_empty.
  - cbn [wf_file_headers forallb]. rewrite Hh. unfold wf_file_header.
    rewrite Hp. cbn [implb andb]. exact (wf_file_headers_none _ Hrest).
Qed.

Lemma tokens_of_header (t3 t4 tail : string) :
  Py.contains " " t3 = false ->
  Py.contains " " t4 = false ->
  header_path ("diff --git " +:+ t3 +:+ " " +:+ t4) = Some (Py.slice_from 2 t4)
  /\ header_path ("diff --git " +:+ t3 +:+ " " +:+ t4 +:+ " " +:+ tail)
     = Some (Py.slice_from 2 t4).
Proof.
  intros H3 H4. unfold header_path. split.
  - change ("diff --git " +:+ t3 +:+ " " +:+ t4)
      with ("diff" +:+ String " " ("--git" +:+ String " " (t3 +:+ String " " t4))).
    rewrite !split_app, (split_no_sep _ _ H3), (split_no_sep _ _ H4).
    reflexivity.
  - change ("diff --git " +:+ t3 +:+ " " +:+ t4 +:+ " " +:+ tail)
      with ("diff" +:+ String " " ("--git" +:+ String " "
              (t3 +:+ String " " (t4 +:+ String " " tail)))).
    rewrite !split_app, (split_no_sep _ _ H3), (split_no_sep _ _ H4).
    cbn [Py.split Ascii.eqb Bool.eqb app length].
    pose proof (split_not_nil " " tail).
    destruct (Py.split " " tail); [contradiction|reflexivity].
Qed.

Lemma is_file_header_prefix (s : string) :
  is_file_header ("diff --git " +:+ s) = true.
Proof. reflexivity. Qed.

(** A header line without newline, a newline and a body without file
    header: the text parses to one entry that holds the whole text. *)
Lemma parse_header_and_body (hdr body : string) (c : ascii) (p : string)
    (ch : list LineChange) :
  is_file_header hdr = true ->
  header_path hdr = Some (String c p) ->
  Py.contains Py.nl hdr = false ->
  existsb is_file_header (Py.split Py.nl body) = false ->
  _extract_line_changes (Py.split Py.nl (hdr +:+ String Py.nl body)) = Ok ch ->
  _parse_diff_content (hdr +:+ String Py.nl body)
  = Ok {[ String c p := mkDiffFile (hdr +:+ String Py.nl body) ch ]}.
Proof.
  intros Hh Hp Hnl Hbody Hch. unfold _parse_diff_content.
  rewrite <- (join_split Py.nl (hdr +:+ String Py.nl body)) at 2.
  rewrite split_app, (split_no_sep _ _ Hnl) in *. cbn [app] in *.
  rewrite (parse_single_block hdr _ c p Hh Hp Hbody), Hch. reflexivity.
Qed.

(** X6: a diff of one file whose old and new path hold no space parses to
    exactly one entry, under the new path, whose raw content is the whole
    text and whose changes are those of its lines. *)
Theorem X6_single_file_diff (a b body : string) (ch : list LineChange) :
  Py.contains " " a = false -> Py.contains " " b = false ->
  Py.contains Py.nl a = false -> Py.contains Py.nl b = false ->
  b <> EmptyString ->
  existsb is_file_header (Py.split Py.nl body) = false ->
  let diff_content :=
    "diff --git a/" +:+ a +:+ " b/" +:+ b +:+ Py.newline +:+ body in
  _extract_line_changes (Py.split Py.nl diff_content) = Ok ch ->
  _parse_diff_content diff_content = Ok {[ b := mkDiffFile diff_content ch ]}.
Proof.
  intros Hsa Hsb Hna Hnb Hb Hbody diff_content.
  assert (Htext : diff_content
                  = ("diff --git a/" +:+ a +:+ " b/" +:+ b) +:+ String Py.nl body).
  { unfold diff_content. now rewrite !string_app_assoc. }
  rewrite Htext. destruct b as [|c p]; [contradiction|]. clear Hb.
  apply parse_header_and_body; try assumption.
  - reflexivity.
  - change ("diff --git a/" +:+ a +:+ " b/" +:+ String c p)
      with ("diff --git " +:+ ("a/" +:+ a) +:+ " " +:+ ("b/" +:+ String c p)).
    now rewrite (proj1 (tokens_of_header ("a/" +:+ a) ("b/" +:+ String c p)
                          EmptyString Hsa Hsb)).
  - rewrite !contains_app, Hna, Hnb. reflexivity.
Qed.

Lemma X6_single_file_diff_witness :
  _parse_diff_content example_diff
  = Ok {[ "f.py" :=
            mkDiffFile example_diff
              [Context 1 1 "context"; Addition 2 "added line";
               Deletion 2 "removed line"; Context 3 3 ""] ]}.
Proof.
  apply (X6_single_file_diff "f.py" "f.py"
           ("@@ -1,2 +1,3 @@" +:+ Py.newline +:+ " context" +:+ Py.newline
            +:+ "+added line" +:+ Py.newline +:+ "-removed line" +:+ Py.newline));
    try reflexivity.
  discriminate.
Defined.

(** X7: a file whose name holds a space is not stored under its path: the
    key is cut from the fourth space-separated token of the header, which
    is then the second word of the old name, without its first two
    characters.  The entry still holds the whole text. *)
Theorem X7_path_with_space_is_cut
    (a1 a2 tail body : string) (ch : list LineChange) :
  Py.contains " " a1 = false -> Py.contains " " a2 = false ->
  Py.contains Py.nl a1 = false -> Py.contains Py.nl a2 = false ->
  Py.contains Py.nl tail = false ->
  Py.slice_from 2 a2 <> EmptyString ->
  existsb is_file_header (Py.split Py.nl body) = false ->
  let diff_content :=
    "diff --git a/" +:+ a1 +:+ " " +:+ a2 +:+ " " +:+ tail
    +:+ Py.newline +:+ body in
  _extract_line_changes (Py.split Py.nl diff_content) = Ok ch ->
  _parse_diff_content diff_content
  = Ok {[ Py.slice_from 2 a2 := mkDiffFile diff_content ch ]}.
Proof.
  intros Hs1 Hs2 Hn1 Hn2 Hnt Hkey Hbody diff_content.
  assert (Htext : diff_content
                  = ("diff --git a/" +:+ a1 +:+ " " +:+ a2 +:+ " " +:+ tail)
                    +:+ String Py.nl body).
  { unfold diff_content. now rewrite !string_app_assoc. }
  rewrite Htext.
  destruct (Py.slice_from 2 a2) as [|c p] eqn:Ekey; [contradiction|]. clear Hkey.
  apply parse_header_and_body; try assumption.
  - reflexivity.
  - change ("diff --git a/" +:+ a1 +:+ " " +:+ a2 +:+ " " +:+ tail)
      with ("diff --git " +:+ ("a/" +:+ a1) +:+ " " +:+ a2 +:+ " " +:+ tail).
    now rewrite (proj2 (tokens_of_header ("a/" +:+ a1) a2 tail Hs1 Hs2)), Ekey.
  - rewrite !contains_app, Hn1, Hn2, Hnt. reflexivity.
Qed.

Lemma X7_path_with_space_is_cut_witness :
  _parse_diff_content
    ("diff --git a/my file.py b/my file.py" +:+ Py.newline +:+ "@@ -1 +1 @@"
     +:+ Py.newline +:+ "+x")
  = Ok {[ "le.py" :=
            mkDiffFile
              ("diff --git a/my file.py b/my file.py" +:+ Py.newline
               +:+ "@@ -1 +1 @@" +:+ Py.newline +:+ "+x")
              [Addition 1 "x"] ]}.
Proof.
  apply (X7_path_with_space_is_cut "my" "file.py" "b/my file.py"
           ("@@ -1 +1 @@" +:+ Py.newline +:+ "+x")); try reflexivity.
  discriminate.
Defined.

(** * The position mapper *)

(** X8: when the hunk headers are readable, [positionOf] returns the
    position, counted from 1 over all lines of the patch text, of the first
    line that carries the target number in the walk. *)
Theorem X8_position_of_first_carrier
    (patch : string) (target : Z) (before after : list (option Z)) :
  carried_lines (Py.split Py.nl patch) 0 = Ok (before ++ Some target :: after) ->
  ~ In (Some target) before ->
  positionOf patch target = Ok (Z.of_nat (length before) + 1).
Proof.
  intros Hnums Hnot. unfold positionOf.
  now rewrite (position_walk_found _ target 0 0 before after Hnums Hnot).
Qed.

Lemma X8_position_of_first_carrier_witness :
  positionOf ("@@ -1,2 +1,2 @@" +:+ Py.newline +:+ " a" +:+ Py.newline
              +:+ "-b" +:+ Py.newline +:+ "+c") 2 = Ok 4.
Proof.
  assert (H : ~ In (Some 2) [None; Some 1; None])
    by (cbn [In]; intros [H|[H|[H|[]]]]; discriminate).
  exact (X8_position_of_first_carrier
           ("@@ -1,2 +1,2 @@" +:+ Py.newline +:+ " a" +:+ Py.newline
            +:+ "-b" +:+ Py.newline +:+ "+c") 2 [None; Some 1; None] [] eq_refl H).
Defined.

Lemma position_walk_bounds (lines : list string) :
  forall target pos cur p,
    position_walk lines target pos cur = Ok p ->
    pos <= p <= pos + Z.of_nat (length lines)
    /\ (lines <> [] -> pos + 1 <= p).
Proof.
  induction lines as [|l lines IH]; intros target pos cur p H.
  - injection H as <-. cbn [length]. split; [lia|congruence].
  - cbn [position_walk] in H.
    assert (Hgo : forall c, position_walk lines target (pos + 1) c = Ok p ->
                            pos <= p <= pos + Z.of_nat (length (l :: lines))
                            /\ (l :: lines <> [] -> pos + 1 <= p)).
    { intros c Hc. destruct (IH _ _ _ _ Hc) as [Hb _]. cbn [length]. lia. }
    destruct (Py.startswith l "@@").
    + destruct (3 <=? length (Py.split " " l))%nat; [|now apply (Hgo cur)].
      destruct (hunk_start _) as [c|e]; cbn [bind] in H; [|discriminate].
      now apply (Hgo c).
    + destruct (Py.startswith l "+" || negb (Py.startswith l "-"));
        [|now apply (Hgo cur)].
      destruct (cur =? target).
      * injection H as <-. cbn [length]. lia.
      * destruct (negb (Py.startswith l "\")); eapply Hgo; exact H.
Qed.

(** X9: whatever the patch text and the target are, a position that
    [positionOf] returns lies between 1 and the number of lines of the patch
    text: the review comment is never anchored outside the patch. *)
Theorem X9_position_within_patch (patch : string) (target p : Z) :
  positionOf patch target = Ok p ->
  1 <= p <= Z.of_nat (length (Py.split Py.nl patch)).
Proof.
  unfold positionOf. intros H.
  destruct (position_walk_bounds _ _ _ _ _ H) as [Hb Hne].
  specialize (Hne (split_not_nil _ _)). lia.
Qed.

Lemma X9_position_within_patch_witness :
  1 <= 4 <= Z.of_nat (length (Py.split Py.nl
                                ("@@ -1,2 +1,2 @@" +:+ Py.newline +:+ " a"
                                 +:+ Py.newline +:+ "-b" +:+ Py.newline +:+ "+c"))).
Proof.
  exact (X9_position_within_patch
           ("@@ -1,2 +1,2 @@" +:+ Py.newline +:+ " a" +:+ Py.newline
            +:+ "-b" +:+ Py.newline +:+ "+c") 9 4 eq_refl).
Defined.

(** ** The mapper finds the line the parser numbered *)

Lemma new_ascending_header (cur : Z) (x : string) (r : list string) (o n : Z) :
  is_hunk_header x = true ->
  hunk_header_starts x = Some (o, n) ->
  new_ascending_from cur (x :: r) = (cur <=? n) && new_ascending_from n r.
Proof.
  intros Hh Hs. unfold new_ascending_from.
  cbn [hunks_of until_header]. rewrite Hh, Hs.
  cbn [ascending_by new_start body]. unfold new_count at 1.
  cbn [List.filter length]. now rewrite Z.add_0_r.
Qed.

Lemma new_ascending_line (cur : Z) (x : string) (r : list string) :
  is_hunk_header x = false ->
  new_ascending_from cur (x :: r)
  = new_ascending_from (cur + if counts_new x then 1 else 0) r.
Proof.
  intros Hh. unfold new_ascending_from.
  cbn [hunks_of until_header]. rewrite Hh.
  destruct (hunks_of r) as [|h hs]; [reflexivity|].
  f_equal. f_equal. unfold new_count. cbn [List.filter].
  destruct (counts_new x); cbn [length]; lia.
Qed.

(** What one step of the extraction does to the new line counter. *)
Lemma extract_step_line (st s1 : hunk_state) (x : string) :
  in_hunk st = true ->
  is_hunk_header x = false ->
  extract_step st x = Ok s1 ->
  in_hunk s1 = true
  /\ new_line_num s1 = new_line_num st + if counts_new x then 1 else 0.
Proof.
  unfold extract_step, is_hunk_header, counts_new. intros Hin -> H.
  rewrite Hin in H.
  destruct (Py.startswith x "+") eqn:Hp.
  { rewrite (startswith_char _ _ "-" Hp), (startswith_char _ _ "\" Hp)
      by discriminate.
    now injection H as <-. }
  destruct (Py.startswith x "-") eqn:Hm.
  { injection H as <-. cbn. split; [reflexivity|lia]. }
  destruct (Py.startswith x "\"); cbn [negb andb] in *; injection H as <-; cbn;
    (split; [assumption || reflexivity|lia]).
Qed.

Lemma extract_step_header (st s1 : hunk_state) (x : string) :
  is_hunk_header x = true ->
  readable_hunk_header x = true ->
  extract_step st x = Ok s1 ->
  exists o n,
    hunk_header_starts x = Some (o, n)
    /\ (3 <=? length (Py.split " " x))%nat = true
    /\ hunk_start (nth 2 (Py.split " " x) EmptyString) = Ok n
    /\ in_hunk s1 = true /\ new_line_num s1 = n.
Proof.
  unfold readable_hunk_header. intros Hh Hr H. rewrite Hh in Hr. cbn [implb] in Hr.
  destruct (hunk_header_starts x) as [[o n]|] eqn:Hs; [|discriminate].
  destruct (hunk_header_starts_inv _ _ _ Hs) as (H3 & Ho & Hn).
  exists o, n. unfold extract_step in H. unfold is_hunk_header in Hh.
  rewrite Hh, H3, Ho, Hn in H. cbn [bind] in H. injection H as <-.
  now repeat split.
Qed.

(** With ascending hunks the new line counter never goes back. *)
Lemma new_counter_monotone (a : list string) :
  forall c st0 st,
    forallb readable_hunk_header a = true ->
    new_ascending_from (new_line_num st0) (a ++ c) = true ->
    in_hunk st0 = true ->
    foldM extract_step a st0 = Ok st ->
    new_line_num st0 <= new_line_num st.
Proof.
  induction a as [|x a IH]; intros c st0 st Hr Hasc Hin Hrun.
  - injection Hrun as <-. lia.
  - cbn [forallb] in Hr. apply andb_prop in Hr as [Hx Hr].
    cbn [foldM] in Hrun.
    destruct (extract_step st0 x) as [s1|e] eqn:Hstep; cbn [bind] in Hrun;
      [|discriminate].
    cbn [app] in Hasc. destruct (is_hunk_header x) eqn:Hh.
    + destruct (extract_step_header _ _ _ Hh Hx Hstep)
        as (o & n & Hs & _ & _ & Hin1 & Hn1).
      rewrite (new_ascending_header _ _ _ _ _ Hh Hs) in Hasc.
      apply andb_prop in Hasc as [Hle Hasc]. apply Z.leb_le in Hle.
      rewrite <- Hn1 in Hasc. specialize (IH c s1 st Hr Hasc Hin1 Hrun). lia.
    + destruct (extract_step_line _ _ _ Hin Hh Hstep) as [Hin1 Hn1].
      rewrite (new_ascending_line _ _ _ Hh), <- Hn1 in Hasc.
      specialize (IH c s1 st Hr Hasc Hin1 Hrun).
      destruct (counts_new x); lia.
Qed.

(** The walk reaches the line after [a] with the counter the parser has
    there, and does not stop before. *)
Lemma position_of_parsed_line (a : list string) :
  forall st0 st pos l b,
    forallb readable_hunk_header a = true ->
    forallb (fun x => negb (is_marker x)) a = true ->
    new_ascending_from (new_line_num st0) (a ++ l :: b) = true ->
    in_hunk st0 = true ->
    foldM extract_step a st0 = Ok st ->
    is_hunk_header l = false ->
    Py.startswith l "-" = false ->
    position_walk (a ++ l :: b) (new_line_num st) pos (new_line_num st0)
    = Ok (pos + Z.of_nat (length a) + 1).
Proof.
  induction a as [|x a IH]; intros st0 st pos l b Hr Hmk Hasc Hin Hrun Hl Hm.
  - injection Hrun as <-. cbn [app position_walk length].
    unfold is_hunk_header in Hl. rewrite Hl, (walk_compares _ Hm), Z.eqb_refl.
    f_equal. lia.
  - cbn [forallb] in Hr, Hmk. apply andb_prop in Hr as [Hx Hr].
    apply andb_prop in Hmk as [Hxm Hmk]. apply negb_true_iff in Hxm.
    cbn [foldM] in Hrun.
    destruct (extract_step st0 x) as [s1|e] eqn:Hstep; cbn [bind] in Hrun;
      [|discriminate].
    cbn [app] in Hasc. cbn [app position_walk length].
    replace (pos + Z.of_nat (S (length a)) + 1)
      with (pos + 1 + Z.of_nat (length a) + 1) by lia.
    destruct (is_hunk_header x) eqn:Hh.
    + destruct (extract_step_header _ _ _ Hh Hx Hstep)
        as (o & n & Hs & H3 & Hn & Hin1 & Hn1).
      rewrite (new_ascending_header _ _ _ _ _ Hh Hs) in Hasc.
      apply andb_prop in Hasc as [_ Hasc]. rewrite <- Hn1 in Hasc.
      unfold is_hunk_header in Hh. rewrite Hh, H3, Hn. cbn [bind].
      rewrite <- Hn1. now apply IH.
    + destruct (extract_step_line _ _ _ Hin Hh Hstep) as [Hin1 Hn1].
      rewrite (new_ascending_line _ _ _ Hh), <- Hn1 in Hasc.
      pose proof (new_counter_monotone a (l :: b) s1 st Hr Hasc Hin1 Hrun) as Hmono.
      pose proof (IH s1 st (pos + 1) l b Hr Hmk Hasc Hin1 Hrun Hl Hm) as Hwalk.
      unfold is_hunk_header in Hh. rewrite Hh.
      unfold counts_new in Hn1. unfold is_marker in Hxm. rewrite Hxm in *.
      pose proof (walk_skips x) as Hs. pose proof (walk_compares x) as Hc.
      destruct (Py.startswith x "-").
      * rewrite (Hs eq_refl). cbn [negb andb] in Hn1.
        rewrite Z.add_0_r in Hn1. now rewrite <- Hn1.
      * rewrite (Hc eq_refl). cbn [negb andb] in Hn1.
        destruct (new_line_num st0 =? new_line_num st) eqn:E;
          [apply Z.eqb_eq in E; lia|].
        now rewrite <- Hn1.
Qed.

(** The statement of X10 and X11, proved once. *)
Lemma position_after_first_header
    (patch hdr l : string) (a b : list string) (st : hunk_state) :
  Py.split Py.nl patch = (hdr :: a) ++ l :: b ->
  is_hunk_header hdr = true ->
  well_formed_file (Py.split Py.nl patch) = true ->
  forallb (fun x => negb (is_marker x)) a = true ->
  foldM extract_step (hdr :: a) extract_init = Ok st ->
  is_hunk_header l = false ->
  Py.startswith l "-" = false ->
  positionOf patch (new_line_num st) = Ok (Z.of_nat (length (hdr :: a)) + 1).
Proof.
  intros Hsplit Hh Hwf Hmk Hrun Hl Hm.
  unfold positionOf. rewrite Hsplit in *. unfold well_formed_file in Hwf.
  apply andb_prop in Hwf as [Hr Hasc]. unfold ascending in Hasc.
  apply andb_prop in Hasc as [_ Hasc].
  cbn [app forallb] in Hr. apply andb_prop in Hr as [Hx Hr].
  rewrite forallb_app in Hr. apply andb_prop in Hr as [Hr _].
  cbn [foldM] in Hrun.
  destruct (extract_step extract_init hdr) as [s1|e] eqn:Hstep;
    cbn [bind] in Hrun; [|discriminate].
  destruct (extract_step_header _ _ _ Hh Hx Hstep)
    as (o & n & Hs & H3 & Hn & Hin1 & Hn1).
  cbn [app hunks_of] in Hasc. rewrite Hh, Hs in Hasc.
  change (new_ascending_from n (a ++ l :: b) = true) in Hasc.
  rewrite <- Hn1 in Hasc.
  cbn [app position_walk length]. unfold is_hunk_header in Hh.
  rewrite Hh, H3, Hn. cbn [bind]. rewrite <- Hn1.
  rewrite (position_of_parsed_line a s1 st (0 + 1) l b Hr Hmk Hasc Hin1 Hrun Hl Hm).
  f_equal. lia.
Qed.

(** X10: the mapper and the parser agree.  In a patch text that starts
    with its hunk header and is well formed (readable, ascending hunk
    headers), take a line that is an addition or context line with no
    no-newline marker before it: the position returned for the new line
    number the parser has when it reads that line is the position of that
    very line. *)
Theorem X10_position_of_parsed_line
    (patch hdr l : string) (a b : list string) (st : hunk_state) :
  Py.split Py.nl patch = (hdr :: a) ++ l :: b ->
  is_hunk_header hdr = true ->
  well_formed_file (Py.split Py.nl patch) = true ->
  forallb (fun x => negb (is_marker x)) a = true ->
  foldM extract_step (hdr :: a) extract_init = Ok st ->
  is_hunk_header l = false ->
  Py.startswith l "-" = false ->
  positionOf patch (new_line_num st) = Ok (Z.of_nat (length (hdr :: a)) + 1).
Proof. exact (position_after_first_header patch hdr l a b st). Qed.

Lemma X10_position_of_parsed_line_witness :
  positionOf ("@@ -3 +3,2 @@" +:+ Py.newline +:+ " a" +:+ Py.newline +:+ "+b"
              +:+ Py.newline +:+ "@@ -10,2 +11 @@" +:+ Py.newline +:+ "-c"
              +:+ Py.newline +:+ "-d" +:+ Py.newline +:+ "+e" +:+ Py.newline
              +:+ "\ No newline at end of file") 11
  = Ok 7.
Proof.
  exact (X10_position_of_parsed_line
           ("@@ -3 +3,2 @@" +:+ Py.newline +:+ " a" +:+ Py.newline +:+ "+b"
            +:+ Py.newline +:+ "@@ -10,2 +11 @@" +:+ Py.newline +:+ "-c"
            +:+ Py.newline +:+ "-d" +:+ Py.newline +:+ "+e" +:+ Py.newline
            +:+ "\ No newline at end of file")
           "@@ -3 +3,2 @@" "+e" [" a"; "+b"; "@@ -10,2 +11 @@"; "-c"; "-d"]
           ["\ No newline at end of file"]
           (HunkState
              [Context 3 3 "a"; Addition 4 "b"; Deletion 10 "c"; Deletion 11 "d"]
              true 12 11)
           eq_refl eq_refl eq_refl eq_refl eq_refl eq_refl eq_refl).
Defined.

(** X11: the no-newline marker takes the place of the line after it.  The
    marker is compared against the target like a context line but does not
    advance the counter, so for the line that follows a marker the walk
    returns the position of the marker, one less than the position of the
    line itself. *)
Theorem X11_marker_takes_the_position
    (patch hdr m l : string) (a b : list string) (st : hunk_state) :
  Py.split Py.nl patch = (hdr :: a) ++ m :: l :: b ->
  is_hunk_header hdr = true ->
  well_formed_file (Py.split Py.nl patch) = true ->
  forallb (fun x => negb (is_marker x)) a = true ->
  is_marker m = true ->
  foldM extract_step ((hdr :: a) ++ [m]) extract_init = Ok st ->
  positionOf patch (new_line_num st) = Ok (Z.of_nat (length (hdr :: a)) + 1)
  /\ positionOf patch (new_line_num st)
     <> Ok (Z.of_nat (length ((hdr :: a) ++ [m])) + 1).
Proof.
  intros Hsplit Hh Hwf Hmk Hm Hrun.
  rewrite foldM_app in Hrun.
  destruct (foldM extract_step (hdr :: a) extract_init) as [s1|e] eqn:Hrun1;
    cbn [bind foldM] in Hrun; [|discriminate].
  assert (Hin : in_hunk s1 = true).
  { rewrite (in_hunk_after _ _ _ Hrun1). cbn [existsb]. rewrite Hh.
    apply orb_true_r. }
  assert (Hmh : is_hunk_header m = false).
  { unfold is_hunk_header. unfold is_marker in Hm.
    destruct m as [|c m]; [discriminate|]. cbn [Py.startswith] in Hm.
    destruct (Ascii.eqb "\" c) eqn:E; [|discriminate].
    apply Ascii.eqb_eq in E. now subst c. }
  destruct (extract_step s1 m) as [s2|e] eqn:Hstep; cbn [bind] in Hrun;
    [|discriminate].
  injection Hrun as <-.
  destruct (extract_step_line _ _ _ Hin Hmh Hstep) as [_ Hn].
  unfold counts_new in Hn. unfold is_marker in Hm. rewrite Hm in Hn.
  rewrite andb_false_r, Z.add_0_r in Hn. rewrite Hn.
  assert (Hpos : positionOf patch (new_line_num s1)
                 = Ok (Z.of_nat (length (hdr :: a)) + 1)).
  { apply (position_after_first_header patch hdr m a (l :: b) s1);
      try assumption.
    apply (startswith_char m "\" "-" Hm). discriminate. }
  split; [exact Hpos|].
  rewrite Hpos, length_app. cbn [length]. intros H. injection H as H. lia.
Qed.

Lemma X11_marker_takes_the_position_witness :
  positionOf ("@@ -1 +1,2 @@" +:+ Py.newline +:+ "-a" +:+ Py.newline
              +:+ "\ No newline at end of file" +:+ Py.newline +:+ "+a"
              +:+ Py.newline +:+ "+b") 1
  = Ok 3
  /\ positionOf ("@@ -1 +1,2 @@" +:+ Py.newline +:+ "-a" +:+ Py.newline
              +:+ "\ No newline at end of file" +:+ Py.newline +:+ "+a"
              +:+ Py.newline +:+ "+b") 1
     <> Ok 4.
Proof.
  exact (X11_marker_takes_the_position
           ("@@ -1 +1,2 @@" +:+ Py.newline +:+ "-a" +:+ Py.newline
            +:+ "\ No newline at end of file" +:+ Py.newline +:+ "+a"
            +:+ Py.newline +:+ "+b")
           "@@ -1 +1,2 @@" "\ No newline at end of file" "+a" ["-a"] ["+b"]
           (HunkState [Deletion 1 "a"] true 2 1)
           eq_refl eq_refl eq_refl eq_refl eq_refl eq_refl).
Defined.

(** * The publisher *)

(** X12: what [post_comment] can do.  It returns [True] exactly when one
    comment reached the platform; it returns [False] only after a
    [GithubException] in the first attempt and with nothing posted; an
    exception that leaves it is never a [GithubException], and then nothing
    was posted either. *)
Theorem X12_post_comment_outcomes
    (gh : Github) (repo_name : string) (pr_number : Z) (file_path : string)
    (line_number : Z) (comment_text : string) :
  match post_comment gh repo_name pr_number file_path line_number comment_text with
  | (out, Ok true) => exists c, out = [c]
  | (out, Ok false) =>
      out = []
      /\ post_review_comment gh repo_name pr_number file_path line_number
                             comment_text = Raise GithubException
  | (out, Raise e) => out = [] /\ e <> GithubException
  end.
Proof.
  unfold post_comment.
  destruct (post_review_comment _ _ _ _ _ _) as [c|e]; [now exists c|].
  destruct e; try (split; [reflexivity|discriminate]).
  destruct (_post_fallback_comment _ _ _ _ _ _) as [c|e]; [now exists c|].
  now split.
Qed.

(** X13: the fallback.  Whenever the first attempt ends in a
    [GithubException] (the pull request cannot be fetched, the commits or
    files cannot be listed, or the review comment is rejected), one issue
    comment is tried whose body is the file and line in bold, an empty
    line and the comment text; [post_comment] returns [True] when the
    platform accepts it and [False], with nothing posted, when it does
    not or when the pull request cannot be fetched. *)
Theorem X13_post_comment_fallback
    (gh : Github) (repo_name : string) (pr_number : Z) (file_path : string)
    (line_number : Z) (comment_text : string) :
  post_review_comment gh repo_name pr_number file_path line_number comment_text
  = Raise GithubException ->
  post_comment gh repo_name pr_number file_path line_number comment_text
  = match get_pull gh repo_name pr_number with
    | Ok pull_request =>
        let body :=
          "**" +:+ file_path +:+ ":" +:+ str_of_Z line_number +:+ "**"
          +:+ Py.newline +:+ Py.newline +:+ comment_text in
        match create_issue_comment pull_request body with
        | None => ([PostedIssue body], Ok true)
        | Some _ => ([], Ok false)
        end
    | Raise _ => ([], Ok false)
    end.
Proof.
  intros Hrej. unfold post_comment, _post_fallback_comment. rewrite Hrej.
  destruct (get_pull gh repo_name pr_number) as [pull_request|e]; cbn [bind];
    [|reflexivity].
  fold (format_fallback file_path line_number comment_text).
  now destruct (create_issue_comment _ _).
Qed.

Lemma X13_post_comment_fallback_witness :
  post_comment review_rejecting_github "o/r" 7 "x.py" 2 "Consider renaming."
  = ([PostedIssue ("**x.py:2**" +:+ Py.newline +:+ Py.newline
                   +:+ "Consider renaming.")], Ok true).
Proof.
  exact (X13_post_comment_fallback review_rejecting_github "o/r" 7 "x.py" 2
           "Consider renaming." eq_refl).
Defined.

(** The first file of the list with the name asked for decides. *)
Lemma position_in_files_found (pre rest : list PRFile) (f : PRFile)
    (file_path : string) (line_number : Z) :
  forallb (fun g => negb (String.eqb (filename g) file_path)) pre = true ->
  filename f = file_path ->
  position_in_files (pre ++ f :: rest) file_path line_number
  = match patch f with
    | Some p => positionOf p line_number
    | None => Raise AttributeError
    end.
Proof.
  intros Hpre Hf. induction pre as [|g pre IH]; cbn [app position_in_files].
  - now rewrite Hf, String.eqb_refl.
  - cbn [forallb] in Hpre. apply andb_prop in Hpre as [Hg Hpre].
    apply negb_true_iff in Hg. rewrite Hg. exact (IH Hpre).
Qed.

(** X14: the review comment is anchored where the mapper says.  When the
    pull request, its last commit and its files can be fetched, the first
    file with the name of the comment has a patch, the walk over that patch
    returns a position and the platform accepts the comment, [post_comment]
    posts exactly one review comment, on the last commit, at that path and
    position, and returns [True]. *)
Theorem X14_review_comment_at_mapped_position
    (gh : Github) (repo_name : string) (pr_number : Z) (file_path : string)
    (line_number : Z) (comment_text : string)
    (pull_request : PullRequest) (commit : string)
    (pre rest : list PRFile) (f : PRFile) (p : string) (position : Z) :
  get_pull gh repo_name pr_number = Ok pull_request ->
  last_commit pull_request = Ok commit ->
  get_files pull_request = Ok (pre ++ f :: rest) ->
  forallb (fun g => negb (String.eqb (filename g) file_path)) pre = true ->
  filename f = file_path ->
  patch f = Some p ->
  positionOf p line_number = Ok position ->
  create_review_comment pull_request comment_text commit file_path position = None ->
  post_comment gh repo_name pr_number file_path line_number comment_text
  = ([PostedReview comment_text commit file_path position], Ok true).
Proof.
  intros Hpull Hcommit Hfiles Hpre Hf Hp Hpos Hok.
  unfold post_comment, post_review_comment, _get_position_in_diff.
  rewrite Hpull. cbn [bind]. rewrite Hcommit. cbn [bind].
  rewrite Hfiles. cbn [bind].
  rewrite (position_in_files_found _ _ _ _ _ Hpre Hf), Hp, Hpos. cbn [bind].
  now rewrite Hok.
Qed.

Lemma X14_review_comment_at_mapped_position_witness :
  post_comment example_github "o/r" 7 "x.py" 2 "Consider renaming."
  = ([PostedReview "Consider renaming." "c0ffee" "x.py" 4], Ok true).
Proof.
  exact (X14_review_comment_at_mapped_position example_github "o/r" 7 "x.py" 2
           "Consider renaming." example_pull_request "c0ffee" [] []
           (mkPRFile "x.py"
              (Some ("@@ -1,2 +1,2 @@" +:+ Py.newline +:+ " keep"
                     +:+ Py.newline +:+ "-old" +:+ Py.newline +:+ "+new")))
           _ 4 eq_refl eq_refl eq_refl eq_refl eq_refl eq_refl eq_refl eq_refl).
Defined.

(** X15: a file without patch.  When the first file with the name of the
    comment has no patch (the platform sends none for binary or very large
    files), [split] is looked up on [None]: the [AttributeError] is not
    caught, [post_comment] raises it, and neither the review comment nor
    the fallback comment is posted. *)
Theorem X15_file_without_patch_raises
    (gh : Github) (repo_name : string) (pr_number : Z) (file_path : string)
    (line_number : Z) (comment_text : string)
    (pull_request : PullRequest) (commit : string)
    (pre rest : list PRFile) (f : PRFile) :
  get_pull gh repo_name pr_number = Ok pull_request ->
  last_commit pull_request = Ok commit ->
  get_files pull_request = Ok (pre ++ f :: rest) ->
  forallb (fun g => negb (String.eqb (filename g) file_path)) pre = true ->
  filename f = file_path ->
  patch f = None ->
  post_comment gh repo_name pr_number file_path line_number comment_text
  = ([], Raise AttributeError).
Proof.
  intros Hpull Hcommit Hfiles Hpre Hf Hp.
  unfold post_comment, post_review_comment, _get_position_in_diff.
  rewrite Hpull. cbn [bind]. rewrite Hcommit. cbn [bind].
  rewrite Hfiles. cbn [bind].
  now rewrite (position_in_files_found _ _ _ _ _ Hpre Hf), Hp.
Qed.

Lemma X15_file_without_patch_raises_witness :
  post_comment
    (mkGithub (fun _ _ =>
       Ok (mkPullRequest (Ok [mkPRFile "logo.png" None]) (Ok "c0ffee")
                         (fun _ _ _ _ => None) (fun _ => None))))
    "o/r" 7 "logo.png" 1 "Why a new logo?"
  = ([], Raise AttributeError).
Proof.
  exact (X15_file_without_patch_raises
           (mkGithub (fun _ _ =>
              Ok (mkPullRequest (Ok [mkPRFile "logo.png" None]) (Ok "c0ffee")
                                (fun _ _ _ _ => None) (fun _ => None))))
           "o/r" 7 "logo.png" 1 "Why a new logo?"
           (mkPullRequest (Ok [mkPRFile "logo.png" None]) (Ok "c0ffee")
                          (fun _ _ _ _ => None) (fun _ => None))
           "c0ffee" [] [] (mkPRFile "logo.png" None)
           eq_refl eq_refl eq_refl eq_refl eq_refl eq_refl).
Defined.

(** ** The publishing loop *)

Lemma post_comment_at_most_one
    (gh : Github) (repo_name : string) (pr_number : Z) (file_path : string)
    (line_number : Z) (comment_text : string) :
  (length (fst (post_comment gh repo_name pr_number file_path line_number
                             comment_text)) <= 1)%nat.
Proof.
  unfold post_comment.
  destruct (post_review_comment _ _ _ _ _ _) as [c|e]; [cbn; lia|].
  destruct e; cbn; try lia.
  destruct (_post_fallback_comment _ _ _ _ _ _); cbn; lia.
Qed.

Lemma post_comments_bound
    (gh : Github) (repo_name : string) (pr_number : Z) (file_path : string)
    (comments : list ReviewComment) :
  (length (fst (post_comments gh repo_name pr_number file_path comments))
   <= length comments)%nat.
Proof.
  induction comments as [|c comments IH]; cbn [post_comments]; [cbn; lia|].
  pose proof (post_comment_at_most_one gh repo_name pr_number file_path
                (line c) (comment_content c)) as H1.
  destruct (post_comment _ _ _ _ _ _) as [out [b|e]]; cbn [fst] in *.
  - destruct (post_comments _ _ _ _ comments) as [out' r]. cbn [fst] in *.
    rewrite length_app. cbn [length]. lia.
  - cbn [length]. lia.
Qed.

(** X16: the loop of [process_pull_request] never posts more comments than
    the analysis results hold, whatever the platform answers: each review
    comment leads to at most one comment on the platform. *)
Theorem X16_at_most_one_post_per_comment
    (gh : Github) (repo_name : string) (pr_number : Z)
    (analysis_results : list (string * list ReviewComment)) :
  (length (fst (post_all gh repo_name pr_number analysis_results))
   <= count_comments analysis_results)%nat.
Proof.
  unfold count_comments.
  induction analysis_results as [|[file_path comments] results IH];
    cbn [post_all map concat snd]; [cbn; lia|].
  pose proof (post_comments_bound gh repo_name pr_number file_path comments) as H1.
  rewrite length_app.
  destruct (post_comments _ _ _ _ comments) as [out [u|e]]; cbn [fst] in *.
  - destruct (post_all _ _ _ results) as [out' r]. cbn [fst] in *.
    rewrite length_app. lia.
  - lia.
Qed.


(** * The analyzer *)

Lemma no_addition_filter (l : list LineChange) :
  existsb is_addition l = false <-> List.filter is_addition l = [].
Proof.
  induction l as [|c l IH]; cbn [existsb List.filter]; [easy|].
  destruct (is_addition c); cbn [orb]; [easy|exact IH].
Qed.

(** What one call of [_analyze_file_diff] adds to the requests sent. *)
Lemma analyze_file_requests
    (loads : string -> option json)
    (respond : list request -> request -> result (option string))
    (self : LLMAnalyzer) (history : list request)
    (file_path : string) (diff_info : DiffFile) :
  fst (_analyze_file_diff loads respond self history file_path diff_info)
  = history
    ++ (if has_addition (file_path, diff_info)
        then option_list (request_for self (file_path, diff_info)) else []).
Proof.
  unfold _analyze_file_diff, has_addition, request_for. cbn [fst snd].
  destruct (existsb is_addition (file_changes diff_info)) eqn:Hadd.
  - destruct (List.filter is_addition (file_changes diff_info)) as [|a adds] eqn:Hf.
    + apply no_addition_filter in Hf. congruence.
    + destruct (splitext file_path) as [root ext]. cbn [snd].
      destruct (String.eqb (provider self) "openai") eqn:E1; cbn [orb].
      { unfold _call_openai, call.
        now destruct (bind _ _). }
      destruct (String.eqb (provider self) "anthropic") eqn:E2.
      { destruct (String.eqb (provider self) "azure_openai") eqn:E4.
        - apply String.eqb_eq in E2, E4. congruence.
        - unfold _call_anthropic, call. now destruct (bind _ _). }
      destruct (String.eqb (provider self) "google") eqn:E3.
      { destruct (String.eqb (provider self) "azure_openai") eqn:E4.
        - apply String.eqb_eq in E3, E4. congruence.
        - unfold _call_google, call. now destruct (bind _ _). }
      destruct (String.eqb (provider self) "azure_openai") eqn:E4.
      { unfold _call_azure_openai, call. now destruct (bind _ _). }
      cbn. now rewrite app_nil_r.
  - apply no_addition_filter in Hadd. rewrite Hadd. cbn. now rewrite app_nil_r.
Qed.

Lemma analyze_items_requests
    (loads : string -> option json)
    (respond : list request -> request -> result (option string))
    (self : LLMAnalyzer) (items : list (string * DiffFile)) :
  forall (history : list request) (results : list (string * list json)),
    fst (analyze_items loads respond self history items results)
    = history ++ omap (request_for self) (List.filter has_addition items).
Proof.
  induction items as [|[file_path diff_info] items IH]; intros history results;
    cbn [analyze_items List.filter].
  - cbn. now rewrite app_nil_r.
  - destruct (file_changes diff_info) as [|c cs] eqn:Hch.
    + unfold has_addition at 1. cbn [snd]. rewrite Hch. cbn [existsb].
      apply IH.
    + pose proof (analyze_file_requests loads respond self history file_path
                    diff_info) as Hreq.
      destruct (_analyze_file_diff loads respond self history file_path diff_info)
        as [history' file_analysis].
      cbn [fst] in Hreq. subst history'.
      assert (forall res,
                 fst (analyze_items loads respond self
                        (history
                         ++ (if has_addition (file_path, diff_info)
                             then option_list (request_for self (file_path, diff_info))
                             else []))
                        items res)
                 = history
                   ++ omap (request_for self)
                        (if has_addition (file_path, diff_info)
                         then (file_path, diff_info) :: List.filter has_addition items
                         else List.filter has_addition items)) as Hgo.
      { intros res. rewrite IH, <- app_assoc. f_equal.
        destruct (has_addition (file_path, diff_info)); [|reflexivity].
        cbn [omap list_omap].
        now destruct (request_for self (file_path, diff_info)). }
      destruct file_analysis; apply Hgo.
Qed.

(** X18: whom the analyzer asks.  Whatever the provider answers, the
    requests that [analyze_diffs] sends are, in the order of the diff, one
    request for every file with at least one added line, built from the
    path, the language of its extension and its raw diff; a file with only
    deletions or context lines is never sent, a failure for one file does
    not stop the requests for the files after it, and with a provider name
    outside the four known ones nothing is sent at all. *)
Theorem X18_requests_of_analyze_diffs
    (loads : string -> option json)
    (respond : list request -> request -> result (option string))
    (self : LLMAnalyzer) (diffs : list (string * DiffFile)) :
  fst (analyze_diffs loads respond self diffs)
  = omap (request_for self) (List.filter has_addition diffs).
Proof.
  unfold analyze_diffs. now rewrite analyze_items_requests.
Qed.

Lemma has_key_get_item (k : string) (v : json) :
  has_key k v = true -> exists x, get_item k v = Some x.
Proof.
  destruct v as [| | | | | |members]; cbn [has_key get_item]; try discriminate.
  intros H. apply existsb_exists in H as (m & Hin & Hm).
  destruct (last (List.filter (fun m => String.eqb (fst m) k) members))
    as [x|] eqn:Hlast; [now exists (snd x)|].
  apply last_None in Hlast.
  assert (In m (List.filter (fun m => String.eqb (fst m) k) members)) as Hf
      by (apply filter_In; now split).
  rewrite Hlast in Hf. destruct Hf.
Qed.

Lemma parse_response_valid (loads : string -> option json)
    (analysis_text : string) (comments : list json) :
  _parse_analysis_response loads analysis_text = Ok comments ->
  Forall (fun c => valid_comment c = true) comments.
Proof.
  unfold _parse_analysis_response.
  destruct (_ && _); [|intros [= <-]; constructor].
  destruct (loads _) as [v|]; [|intros [= <-]; constructor].
  destruct (iterate v) as [items|e]; cbn [bind]; [|discriminate].
  intros [= <-]. apply Forall_forall. intros c Hc.
  apply list_elem_of_In in Hc. now apply filter_In in Hc.
Qed.

Lemma call_valid
    (loads : string -> option json)
    (respond : list request -> request -> result (option string))
    (history : list request) (req : request) (comments : list json) :
  snd (call loads respond history req) = Ok comments ->
  Forall (fun c => valid_comment c = true) comments.
Proof.
  unfold call. cbn [snd].
  destruct (respond history req) as [[t|]|e]; cbn [bind]; try discriminate.
  apply parse_response_valid.
Qed.

(** What [_analyze_file_diff] returns: valid comments, and none for a file
    without added line. *)
Lemma analyze_file_comments
    (loads : string -> option json)
    (respond : list request -> request -> result (option string))
    (self : LLMAnalyzer) (history : list request)
    (file_path : string) (diff_info : DiffFile) :
  Forall (fun c => valid_comment c = true)
         (snd (_analyze_file_diff loads respond self history file_path diff_info))
  /\ (has_addition (file_path, diff_info) = false ->
      snd (_analyze_file_diff loads respond self history file_path diff_info) = []).
Proof.
  unfold _analyze_file_diff, has_addition. cbn [snd].
  destruct (List.filter is_addition (file_changes diff_info)) as [|a adds] eqn:Hf.
  - split; [constructor|reflexivity].
  - split.
    2:{ intros Hno. apply no_addition_filter in Hno. congruence. }
    destruct (splitext file_path) as [root ext].
    assert (forall p : list request * result (list json),
               (forall comments, snd p = Ok comments ->
                                 Forall (fun c => valid_comment c = true) comments) ->
               Forall (fun c => valid_comment c = true)
                      (snd (let '(history', r) := p in
                            match r with
                            | Ok comments => (history', comments)
                            | Raise _ => (history', [])
                            end))) as Hwrap.
    { intros [h' [comments|e]] Hp; cbn [snd]; [now apply Hp|constructor]. }
    apply Hwrap. intros comments.
    destruct (String.eqb (provider self) "openai"); [apply call_valid|].
    destruct (String.eqb (provider self) "anthropic"); [apply call_valid|].
    destruct (String.eqb (provider self) "google"); [apply call_valid|].
    destruct (String.eqb (provider self) "azure_openai"); [apply call_valid|].
    discriminate.
Qed.

Lemma dict_set_In {V : Type} (k k' : string) (v v' : V) (d : list (string * V)) :
  In (k', v') (dict_set k v d) -> (k', v') = (k, v) \/ In (k', v') d.
Proof.
  induction d as [|[k0 v0] d IH]; cbn [dict_set In].
  - intros [H|[]]. now left.
  - destruct (String.eqb k0 k); cbn [In].
    + intros [H|H]; [now left|now right; right].
    + intros [H|H]; [now right; left|].
      destruct (IH H) as [H'|H']; [now left|now right; right].
Qed.

(** An entry of the results is there from the start or stands for a file
    with an added line and holds valid comments, at least one. *)
Lemma analyze_items_results
    (loads : string -> option json)
    (respond : list request -> request -> result (option string))
    (self : LLMAnalyzer) (file_path : string) (comments : list json)
    (items : list (string * DiffFile)) :
  forall (history : list request) (results : list (string * list json)),
    In (file_path, comments)
       (snd (analyze_items loads respond self history items results)) ->
    In (file_path, comments) results
    \/ ((exists diff_info,
            In (file_path, diff_info) items
            /\ has_addition (file_path, diff_info) = true)
        /\ comments <> []
        /\ Forall (fun c => valid_comment c = true) comments).
Proof.
  induction items as [|[path diff_info] items IH]; intros history results;
    cbn [analyze_items].
  - cbn [snd]. now left.
  - assert (forall h res,
               In (file_path, comments)
                  (snd (analyze_items loads respond self h items res)) ->
               In (file_path, comments) res
               \/ ((exists diff_info0,
                       In (file_path, diff_info0) ((path, diff_info) :: items)
                       /\ has_addition (file_path, diff_info0) = true)
                   /\ comments <> []
                   /\ Forall (fun c => valid_comment c = true) comments)) as Hrest.
    { intros h res Hin. destruct (IH h res Hin) as [H|((d & Hd & Ha) & Hne & Hv)];
        [now left|right].
      split; [|now split]. exists d. split; [now right|exact Ha]. }
    destruct (file_changes diff_info) as [|c cs] eqn:Hch; [apply Hrest|].
    pose proof (analyze_file_comments loads respond self history path diff_info)
      as [Hvalid Hnone].
    destruct (_analyze_file_diff loads respond self history path diff_info)
      as [history' file_analysis].
    cbn [snd] in Hvalid, Hnone.
    destruct file_analysis as [|j js]; [apply Hrest|].
    intros Hin. destruct (Hrest _ _ Hin) as [H|H]; [|now right].
    apply dict_set_In in H as [H|H]; [|now left].
    injection H as -> ->. right. split; [|split; [discriminate|exact Hvalid]].
    exists diff_info. split; [now left|].
    destruct (has_addition (path, diff_info)) eqn:Ha; [reflexivity|].
    now specialize (Hnone eq_refl).
Qed.

(** X19: what the results hold.  Every entry of the results of
    [analyze_diffs] stands for a file of the diff with at least one added
    line, its list of comments is not empty, and every comment is an object
    in which the publishing loop finds both [comment['line']] and
    [comment['content']], whatever the provider answered. *)
Theorem X19_results_can_be_published
    (loads : string -> option json)
    (respond : list request -> request -> result (option string))
    (self : LLMAnalyzer) (diffs : list (string * DiffFile))
    (file_path : string) (comments : list json) :
  In (file_path, comments) (snd (analyze_diffs loads respond self diffs)) ->
  (exists diff_info,
      In (file_path, diff_info) diffs
      /\ has_addition (file_path, diff_info) = true)
  /\ comments <> []
  /\ Forall (fun c => exists l t,
                 get_item "line" c = Some l /\ get_item "content" c = Some t)
            comments.
Proof.
  unfold analyze_diffs. intros Hin.
  apply analyze_items_results in Hin as [[]|(Hfile & Hne & Hvalid)].
  split; [exact Hfile|split; [exact Hne|]].
  eapply Forall_impl; [exact Hvalid|].
  intros c Hc. unfold valid_comment in Hc. apply andb_prop in Hc as [Hl Ht].
  apply has_key_get_item in Hl as [l Hl]. apply has_key_get_item in Ht as [t Ht].
  now exists l, t.
Qed.

Lemma X19_results_can_be_published_witness :
  (exists diff_info,
      In ("x.py", diff_info) example_diffs
      /\ has_addition ("x.py", diff_info) = true)
  /\ [JObj [("line", JInt 2); ("content", JStr "Consider renaming.")]] <> []
  /\ Forall (fun c => exists l t,
                 get_item "line" c = Some l /\ get_item "content" c = Some t)
            [JObj [("line", JInt 2); ("content", JStr "Consider renaming.")]].
Proof.
  apply (X19_results_can_be_published Json.loads example_respond
           example_analyzer example_diffs).
  vm_compute. left. reflexivity.
Defined.

Lemma dict_set_absent {V : Type} (k : string) (v : V) (d : list (string * V)) :
  ~ In k (map fst d) -> dict_set k v d = d ++ [(k, v)].
Proof.
  induction d as [|[k0 v0] d IH]; cbn [dict_set map fst In app]; [reflexivity|].
  intros Hno. destruct (String.eqb k0 k) eqn:E.
  - apply String.eqb_eq in E. destruct Hno. now left.
  - f_equal. apply IH. intros H. apply Hno. now right.
Qed.

(** The entries the loop adds come in the order of the items. *)
Lemma analyze_items_order
    (loads : string -> option json)
    (respond : list request -> request -> result (option string))
    (self : LLMAnalyzer) (items : list (string * DiffFile)) :
  forall (history : list request) (results : list (string * list json)),
    List.NoDup (map fst items) ->
    (forall k, In k (map fst items) -> ~ In k (map fst results)) ->
    exists added,
      snd (analyze_items loads respond self history items results)
      = results ++ added
      /\ sublist (map fst added) (map fst items).
Proof.
  induction items as [|[path diff_info] items IH]; intros history results Hnd Hnew;
    cbn [analyze_items].
  - exists []. cbn [snd map]. now rewrite app_nil_r.
  - cbn [map fst] in Hnd, Hnew. inversion Hnd as [|k l Hpath Hnd']. subst k l.
    assert (forall h,
               exists added,
                 snd (analyze_items loads respond self h items results)
                 = results ++ added
                 /\ sublist (map fst added) (map fst ((path, diff_info) :: items)))
      as Hskip.
    { intros h. destruct (IH h results Hnd') as (added & Hres & Hsub).
      - intros k Hk. apply Hnew. now right.
      - exists added. split; [exact Hres|]. cbn [map fst]. now apply sublist_cons. }
    destruct (file_changes diff_info) as [|c cs]; [apply Hskip|].
    destruct (_analyze_file_diff loads respond self history path diff_info)
      as [history' file_analysis].
    destruct file_analysis as [|j js]; [apply Hskip|].
    rewrite dict_set_absent by (apply Hnew; now left).
    destruct (IH history' (results ++ [(path, j :: js)]) Hnd')
      as (added & Hres & Hsub).
    + intros k Hk. rewrite map_app, in_app_iff. cbn [map fst In].
      intros [H|[H|[]]].
      * revert H. apply Hnew. now right.
      * now subst k.
    + exists ((path, j :: js) :: added). split.
      * rewrite Hres, <- app_assoc. reflexivity.
      * cbn [map fst]. now apply sublist_skip.
Qed.

(** X20: the order of the results.  The diffs being a dictionary (no path
    twice), the paths of the results of [analyze_diffs] are paths of the
    diff in the order of the diff, each at most once: the publishing loop
    meets the files in the order in which the parser stored them. *)
Theorem X20_results_follow_the_diff
    (loads : string -> option json)
    (respond : list request -> request -> result (option string))
    (self : LLMAnalyzer) (diffs : list (string * DiffFile)) :
  List.NoDup (map fst diffs) ->
  sublist (map fst (snd (analyze_diffs loads respond self diffs)))
          (map fst diffs).
Proof.
  intros Hnd. unfold analyze_diffs.
  destruct (analyze_items_order loads respond self diffs [] [] Hnd)
    as (added & -> & Hsub); [intros k _ []|exact Hsub].
Qed.

Lemma X20_results_follow_the_diff_witness :
  sublist (map fst (snd (analyze_diffs Json.loads example_respond
                                       example_analyzer example_diffs)))
          (map fst example_diffs).
Proof.
  apply (X20_results_follow_the_diff Json.loads example_respond
           example_analyzer example_diffs).
  vm_compute. repeat constructor; cbn [In]; intuition discriminate.
Defined.

(** ** From the analysis to the comments on the platform *)

Lemma post_comment_posted
    (gh : Github) (repo_name : string) (pr_number : Z) (file_path : string)
    (line_number : Z) (comment_text : string) (c : posted) :
  In c (fst (post_comment gh repo_name pr_number file_path line_number
                          comment_text)) ->
  (exists commit position,
      c = PostedReview comment_text commit file_path position)
  \/ c = PostedIssue (format_fallback file_path line_number comment_text).
Proof.
  unfold post_comment.
  destruct (post_review_comment _ _ _ _ _ _) as [c0|e] eqn:Hrev.
  - cbn [fst In]. intros [<-|[]]. left.
    unfold post_review_comment in Hrev.
    destruct (get_pull gh repo_name pr_number) as [pull_request|]; cbn [bind] in Hrev;
      [|discriminate].
    destruct (last_commit pull_request) as [commit|]; cbn [bind] in Hrev;
      [|discriminate].
    destruct (_get_position_in_diff _ _ _) as [position|]; cbn [bind] in Hrev;
      [|discriminate].
    destruct (create_review_comment _ _ _ _ _); [discriminate|].
    injection Hrev as <-. now exists commit, position.
  - destruct e; cbn [fst In]; try easy.
    destruct (_post_fallback_comment _ _ _ _ _ _) as [c0|e] eqn:Hfb;
      cbn [fst In]; [|easy].
    intros [<-|[]]. right.
    unfold _post_fallback_comment in Hfb.
    destruct (get_pull gh repo_name pr_number) as [pull_request|]; cbn [bind] in Hfb;
      [|discriminate].
    destruct (create_issue_comment _ _); [discriminate|].
    now injection Hfb as <-.
Qed.

Lemma post_comments_posted
    (gh : Github) (repo_name : string) (pr_number : Z) (file_path : string)
    (comments : list ReviewComment) (c : posted) :
  In c (fst (post_comments gh repo_name pr_number file_path comments)) ->
  exists comment,
    In comment comments
    /\ ((exists commit position,
            c = PostedReview (comment_content comment) commit file_path position)
        \/ c = PostedIssue (format_fallback file_path (line comment)
                                            (comment_content comment))).
Proof.
  induction comments as [|comment comments IH]; cbn [post_comments];
    [intros []|].
  pose proof (post_comment_posted gh repo_name pr_number file_path
                (line comment) (comment_content comment) c) as Hone.
  destruct (post_comment _ _ _ _ _ _) as [out [b|e]]; cbn [fst] in Hone.
  - destruct (post_comments _ _ _ _ comments) as [out' r]. cbn [fst] in *.
    rewrite in_app_iff. intros [H|H].
    + exists comment. split; [now left|exact (Hone H)].
    + destruct (IH H) as (comment' & Hin & Hc). exists comment'.
      split; [now right|exact Hc].
  - cbn [fst]. intros H. exists comment. split; [now left|exact (Hone H)].
Qed.

Lemma post_all_posted
    (gh : Github) (repo_name : string) (pr_number : Z)
    (analysis_results : list (string * list ReviewComment)) (c : posted) :
  In c (fst (post_all gh repo_name pr_number analysis_results)) ->
  exists file_path comments comment,
    In (file_path, comments) analysis_results
    /\ In comment comments
    /\ ((exists commit position,
            c = PostedReview (comment_content comment) commit file_path position)
        \/ c = PostedIssue (format_fallback file_path (line comment)
                                            (comment_content comment))).
Proof.
  induction analysis_results as [|[file_path comments] results IH];
    cbn [post_all]; [intros []|].
  pose proof (post_comments_posted gh repo_name pr_number file_path comments c)
    as Hone.
  assert (In c (fst (post_comments gh repo_name pr_number file_path comments)) ->
          exists file_path0 comments0 comment,
            In (file_path0, comments0) ((file_path, comments) :: results)
            /\ In comment comments0
            /\ ((exists commit position,
                    c = PostedReview (comment_content comment) commit file_path0
                                     position)
                \/ c = PostedIssue (format_fallback file_path0 (line comment)
                                                    (comment_content comment))))
    as Hhere.
  { intros H. destruct (Hone H) as (comment & Hin & Hc).
    exists file_path, comments, comment. split; [now left|now split]. }
  destruct (post_comments _ _ _ _ comments) as [out [u|e]]; cbn [fst] in Hhere.
  - destruct (post_all _ _ _ results) as [out' r]. cbn [fst] in *.
    rewrite in_app_iff. intros [H|H]; [exact (Hhere H)|].
    destruct (IH H) as (p & cs & comment & Hin & Hc). exists p, cs, comment.
    split; [now right|exact Hc].
  - exact Hhere.
Qed.

Lemma mapM_In {A B : Type} (f : A -> option B) (l : list A) (k : list B) (y : B) :
  mapM f l = Some k -> In y k -> exists x, In x l /\ f x = Some y.
Proof.
  intros H. apply mapM_Some in H. induction H as [|x y' l k Hxy _ IH].
  - intros [].
  - cbn [In]. intros [<-|Hy].
    + exists x. split; [now left|exact Hxy].
    + destruct (IH Hy) as (x' & Hin & Hx'). exists x'. split; [now right|exact Hx'].
Qed.

(** X21: from the diff to the platform.  When the comments of the results
    carry an integer line and a string content, every comment that the
    publishing loop brings to the platform, as a review comment or as the
    fallback issue comment, names a file of the diff with at least one added
    line, and its text is the content of a comment that the analysis
    returned for that file. *)
Theorem X21_comments_only_for_files_with_additions
    (loads : string -> option json)
    (respond : list request -> request -> result (option string))
    (self : LLMAnalyzer) (diffs : list (string * DiffFile))
    (gh : Github) (repo_name : string) (pr_number : Z)
    (analysis_results : list (string * list ReviewComment)) (c : posted) :
  review_comments (snd (analyze_diffs loads respond self diffs))
  = Some analysis_results ->
  In c (fst (post_all gh repo_name pr_number analysis_results)) ->
  exists file_path diff_info comments comment review,
    In (file_path, diff_info) diffs
    /\ has_addition (file_path, diff_info) = true
    /\ In (file_path, comments) (snd (analyze_diffs loads respond self diffs))
    /\ In comment comments
    /\ review_comment comment = Some review
    /\ ((exists commit position,
            c = PostedReview (comment_content review) commit file_path position)
        \/ c = PostedIssue (format_fallback file_path (line review)
                                            (comment_content review))).
Proof.
  intros Htyped Hc.
  apply post_all_posted in Hc as (file_path & rcs & rc & Hentry & Hrc & Hshape).
  destruct (mapM_In _ _ _ _ Htyped Hentry) as ([path comments] & Hres & Hconv).
  cbn [fst snd] in Hconv.
  destruct (mapM review_comment comments) as [rcs'|] eqn:Hrcs; [|discriminate].
  injection Hconv as -> ->.
  destruct (mapM_In _ _ _ _ Hrcs Hrc) as (comment & Hcomment & Hrev).
  pose proof Hres as Hfile.
  unfold analyze_diffs in Hfile.
  apply analyze_items_results in Hfile as [[]|((diff_info & Hd & Ha) & _ & _)].
  now exists file_path, diff_info, comments, comment, rc.
Qed.

Lemma X21_comments_only_for_files_with_additions_witness :
  exists file_path diff_info comments comment review,
    In (file_path, diff_info) example_diffs
    /\ has_addition (file_path, diff_info) = true
    /\ In (file_path, comments)
          (snd (analyze_diffs Json.loads example_respond example_analyzer
                              example_diffs))
    /\ In comment comments
    /\ review_comment comment = Some review
    /\ ((exists commit position,
            PostedReview "Consider renaming." "c0ffee" "x.py" 4
            = PostedReview (comment_content review) commit file_path position)
        \/ PostedReview "Consider renaming." "c0ffee" "x.py" 4
           = PostedIssue (format_fallback file_path (line review)
                                          (comment_content review))).
Proof.
  apply (X21_comments_only_for_files_with_additions Json.loads example_respond
           example_analyzer example_diffs example_github "o/r" 7
           [("x.py", [mkComment 2 "Consider renaming."])]).
  - vm_compute. reflexivity.
  - vm_compute. left. reflexivity.
Defined.

(** ** The language of a file *)

Lemma rfind_absent (c : ascii) (s : string) :
  Py.contains c s = false -> Py.rfind c s = -1.
Proof.
  induction s as [|a s IH]; cbn [Py.contains Py.rfind]; [reflexivity|].
  intros H. apply orb_false_elim in H as [Ha Hs].
  rewrite (IH Hs), Ha. reflexivity.
Qed.

Lemma rfind_range (c : ascii) (s : string) :
  -1 <= Py.rfind c s < Z.of_nat (String.length s).
Proof.
  induction s as [|a s IH]; cbn [Py.rfind String.length]; [lia|].
  destruct (0 <=? Py.rfind c s) eqn:E; [lia|].
  destruct (Ascii.eqb a c); lia.
Qed.

Lemma rfind_app_absent (c : ascii) (s t : string) :
  Py.contains c t = false -> Py.rfind c (s +:+ t) = Py.rfind c s.
Proof.
  intros Ht. induction s as [|a s IH]; cbn [String.append Py.rfind].
  - now apply rfind_absent.
  - now rewrite IH.
Qed.

Lemma rfind_app_char (c : ascii) (s t : string) :
  Py.contains c t = false ->
  Py.rfind c (s +:+ String c t) = Z.of_nat (String.length s).
Proof.
  intros Ht. induction s as [|a s IH]; cbn [String.append Py.rfind String.length].
  - rewrite (rfind_absent _ _ Ht), Ascii.eqb_refl. reflexivity.
  - rewrite IH. destruct (0 <=? Z.of_nat (String.length s)) eqn:E; lia.
Qed.

Lemma slice_from_app (n : nat) (s t : string) :
  (n <= String.length s)%nat ->
  Py.slice_from n (s +:+ t) = Py.slice_from n s +:+ t.
Proof.
  revert n. induction s as [|a s IH]; intros [|n] Hn;
    cbn [String.append Py.slice_from String.length] in *; try reflexivity; try lia.
  apply IH. lia.
Qed.

Lemma slice_from_length (s : string) :
  Py.slice_from (String.length s) s = EmptyString.
Proof.
  induction s as [|a s IH]; cbn [Py.slice_from String.length]; [reflexivity|exact IH].
Qed.

Lemma slice_to_app (s t : string) :
  Py.slice_to (String.length s) (s +:+ t) = s.
Proof.
  induction s as [|a s IH]; cbn [String.append Py.slice_to String.length].
  - now destruct t.
  - now rewrite IH.
Qed.

Lemma length_slice_from (n : nat) (s : string) :
  String.length (Py.slice_from n s) = (String.length s - n)%nat.
Proof.
  revert n. induction s as [|a s IH]; intros [|n];
    cbn [Py.slice_from String.length]; try reflexivity.
  apply IH.
Qed.

(** Where [splitext] cuts a path that ends in a dot and a word. *)
Lemma splitext_app (p e : string) :
  Py.contains "." e = false ->
  Py.contains "/" e = false ->
  splitext (p +:+ "." +:+ e)
  = if only_dots (basename p) then (p +:+ "." +:+ e, EmptyString)
    else (p, "." +:+ e).
Proof.
  intros Hdot Hsep. unfold splitext, basename.
  change (p +:+ "." +:+ e) with (p +:+ String "." e).
  rewrite (rfind_app_char "." p e Hdot).
  rewrite (rfind_app_absent "/" p (String "." e)) by exact Hsep.
  pose proof (rfind_range "/" p) as Hr.
  replace (Py.rfind "/" p <? Z.of_nat (String.length p)) with true
    by (symmetry; apply Z.ltb_lt; lia).
  cbn [andb]. unfold Py.slice.
  rewrite slice_from_app by lia.
  replace (Z.to_nat (Z.of_nat (String.length p) - (Py.rfind "/" p + 1)))
    with (String.length (Py.slice_from (Z.to_nat (Py.rfind "/" p + 1)) p))
    by (rewrite length_slice_from; lia).
  rewrite slice_to_app.
  destruct (only_dots (Py.slice_from (Z.to_nat (Py.rfind "/" p + 1)) p));
    cbn [negb]; [reflexivity|].
  rewrite Nat2Z.id, slice_to_app.
  rewrite slice_from_app by lia. now rewrite slice_from_length.
Qed.

Lemma lower_char_idem (c : ascii) : lower_char (lower_char c) = lower_char c.
Proof.
  destruct c as [[] [] [] [] [] [] [] []]; reflexivity.
Qed.

Lemma lower_idem (s : string) : lower (lower s) = lower s.
Proof.
  induction s as [|c s IH]; cbn [lower]; [reflexivity|].
  now rewrite lower_char_idem, IH.
Qed.

(** X22: the language named in the prompt.  For a path that ends in a dot
    and a word without dot or slash, the language is looked up for that
    last word alone, without regard to case; it is [Unknown] when the word
    follows leading dots only, as in [.gitignore] or [src/.py]. *)
Theorem X22_language_of_a_path (p e : string) :
  Py.contains "." e = false ->
  Py.contains "/" e = false ->
  _get_language_from_extension (snd (splitext (p +:+ "." +:+ e)))
  = if only_dots (basename p) then "Unknown"
    else _get_language_from_extension ("." +:+ lower e).
Proof.
  intros Hdot Hsep. rewrite (splitext_app p e Hdot Hsep).
  destruct (only_dots (basename p)); cbn [snd]; [reflexivity|].
  unfold _get_language_from_extension.
  change ("." +:+ lower e) with (String "." (lower e)).
  change ("." +:+ e) with (String "." e).
  cbn [lower]. now rewrite lower_idem.
Qed.

Lemma X22_language_of_a_path_witness :
  _get_language_from_extension (snd (splitext "src/Main.PY")) = "Python".
Proof.
  exact (X22_language_of_a_path "src/Main" "PY" eq_refl eq_refl).
Defined.

(** ** A constructed analyzer *)

Lemma omap_total {A B : Type} (f : A -> option B) (l : list A) :
  (forall x, f x <> None) -> map Some (omap f l) = map f l.
Proof.
  intros Hf. induction l as [|x l IH]; [reflexivity|].
  cbn [omap list_omap map]. destruct (f x) as [y|] eqn:E.
  - cbn [map]. now rewrite <- IH.
  - now destruct (Hf x).
Qed.

Lemma init_provider
    (getenv : string -> option string) (client_available : string -> bool)
    (api_key : string) (self : LLMAnalyzer) :
  LLMAnalyzer_init getenv client_available api_key = Some self ->
  provider self = lower (default "openai" (getenv "LLM_PROVIDER"))
  /\ In (provider self) ["openai"; "anthropic"; "google"; "azure_openai"].
Proof.
  unfold LLMAnalyzer_init.
  set (p := lower (default "openai" (getenv "LLM_PROVIDER"))).
  destruct (String.eqb p "openai") eqn:E1.
  { apply String.eqb_eq in E1. destruct (client_available "openai"); [|discriminate].
    intros [= <-]. cbn [provider In]. auto. }
  destruct (String.eqb p "anthropic") eqn:E2.
  { apply String.eqb_eq in E2. destruct (client_available "anthropic"); [|discriminate].
    intros [= <-]. cbn [provider In]. auto. }
  destruct (String.eqb p "google") eqn:E3.
  { apply String.eqb_eq in E3. destruct (client_available "google"); [|discriminate].
    intros [= <-]. cbn [provider In]. auto. }
  destruct (String.eqb p "azure_openai") eqn:E4; [|discriminate].
  apply String.eqb_eq in E4. destruct (client_available "azure_openai"); [|discriminate].
  destruct (getenv "AZURE_OPENAI_ENDPOINT") as [[|c s]|]; try discriminate.
  intros [= <-]. cbn [provider In]. auto 6.
Qed.

(** X25: a constructed analyzer asks for every file.  An analyzer that
    [__init__] has built has the provider name of the environment in lower
    case (the default being [openai]), and that name is one of the four
    known ones; so the branch for an unsupported provider is never taken,
    and [analyze_diffs] sends one request for each file with an added
    line, in the order of the diff, whatever the provider answers. *)
Theorem X25_constructed_analyzer_asks_for_every_file
    (getenv : string -> option string) (client_available : string -> bool)
    (api_key : string) (self : LLMAnalyzer)
    (loads : string -> option json)
    (respond : list request -> request -> result (option string))
    (diffs : list (string * DiffFile)) :
  LLMAnalyzer_init getenv client_available api_key = Some self ->
  provider self = lower (default "openai" (getenv "LLM_PROVIDER"))
  /\ map Some (fst (analyze_diffs loads respond self diffs))
     = map (request_for self) (List.filter has_addition diffs).
Proof.
  intros Hinit. destruct (init_provider _ _ _ _ Hinit) as [Hp Hknown].
  split; [exact Hp|].
  unfold analyze_diffs. rewrite analyze_items_requests. cbn [app].
  apply omap_total. intros item. unfold request_for.
  cbn [In] in Hknown.
  destruct Hknown as [<-|[<-|[<-|[<-|[]]]]]; discriminate.
Qed.

Lemma X25_constructed_analyzer_asks_for_every_file_witness :
  provider (mkLLMAnalyzer "openai" "gpt-4-turbo")
  = lower (default "openai" (example_env "LLM_PROVIDER"))
  /\ map Some (fst (analyze_diffs Json.loads example_respond
                                  (mkLLMAnalyzer "openai" "gpt-4-turbo")
                                  example_diffs))
     = map (request_for (mkLLMAnalyzer "openai" "gpt-4-turbo"))
           (List.filter has_addition example_diffs).
Proof.
  exact (X25_constructed_analyzer_asks_for_every_file example_env
           (fun _ => true) "sk-key" (mkLLMAnalyzer "openai" "gpt-4-turbo")
           Json.loads example_respond example_diffs eq_refl).
Defined.

(** * Fetching the diff *)



(** X23: how [get_pr_diffs] ends.  It returns a mapping only when the pull
    request was fetched, the request for its [diff_url], sent with the token
    in the [Authorization] header, was answered with status 200 and the text
    of the answer parses to that mapping.  Every exception that leaves it is
    a plain [Exception] whose message starts with [Failed to get PR diffs: ];
    a [GithubException] of the platform is wrapped twice, by
    [get_pr_details] and by [get_pr_diffs]. *)
Theorem X23_get_pr_diffs_outcomes
    (str_library : exn -> string) (self : GithubHandler)
    (repo_name : string) (pr_number : Z) :
  match get_pr_diffs str_library self repo_name pr_number with
  | Ok diffs =>
      exists pull_request response,
        repo_get_pull self repo_name pr_number = Ok pull_request
        /\ requests_get self (diff_url pull_request)
                        ("token " +:+ github_token self) = Ok response
        /\ status_code response = 200
        /\ _parse_diff_content (response_text response) = Ok diffs
  | Raise e =>
      exists msg,
        e = PlainException ("Failed to get PR diffs: " +:+ msg)
        /\ (repo_get_pull self repo_name pr_number = Raise GithubException ->
            msg = "Failed to get PR details: " +:+ str_library GithubException)
  end.
Proof.
  unfold get_pr_diffs, get_pr_details.
  destruct (repo_get_pull self repo_name pr_number) as [pull_request|e] eqn:Hpull;
    cbn [bind].
  - destruct (requests_get self _ _) as [response|e] eqn:Hget; cbn [bind].
    + destruct (status_code response =? 200) eqn:Hs; cbn [negb].
      * destruct (_parse_diff_content (response_text response)) as [diffs|e]
          eqn:Hparse.
        -- exists pull_request, response. apply Z.eqb_eq in Hs. now repeat split.
        -- eexists. split; [reflexivity|discriminate].
      * eexists. split; [reflexivity|discriminate].
    + eexists. split; [reflexivity|discriminate].
  - destruct e; cbn [bind]; eexists; (split; [reflexivity|]);
      try discriminate.
    intros _. reflexivity.
Qed.


